(** * Metadata extraction for video containers (hachoir_metadata/video.py)

    A shallow embedding of the four extractors of
    [hachoir_metadata/video.py] (Matroska, FLV, MOV, ASF) and the
    properties stated about them.

    - Python values are a sum type [Value]; floats are IEEE binary64
      ([PrimFloat]), integers are [Z].
    - The parsed container is a [Field] tree; a path such as
      ["Video/PixelWidth/unsigned"] is split on ["/"] by [path], and an
      array element ["Segment[0]"] is the name [Segment] with index [0].
    - An extractor method is a computation [M S A] on the record [S] being
      filled: it returns the record as it stands when the method returns or
      raises, and either a result or the exception raised.
    - The parser gives each leaf the kind its path announces
      ([.../float], [.../unsigned], [.../unicode]). On a leaf of another kind
      the arithmetic and comparisons below raise TypeError; the statements
      name the kind of every leaf they read.
    - What the module imports (the record class, the helpers of
      hachoir_core and of the parsers) is not part of the file: the record
      is modelled from its contract, the helpers are the fields of
      [Externals]. *)

From Stdlib Require Import ZArith Floats String Ascii List Lia Bool.
From stdpp Require Import base option list strings pretty gmap.

Set Warnings "-inexact-float".

Local Open Scope string_scope.
Local Open Scope list_scope.
Local Open Scope Z_scope.

(** ** Python values *)

Inductive Value : Type :=
| VNone
| VBool (b : bool)
| VInt (z : Z)
| VFloat (x : float)
| VStr (s : string)            (* byte string, [str] *)
| VUni (s : string)            (* text string, [unicode] *)
| VTimedelta (us : Z)          (* [datetime.timedelta], in microseconds *)
| VDatetime (us : Z)           (* [datetime.datetime], microseconds from an epoch *)
| VPair (v : Value) (text : string).   (* the tuple [(value, text)] *)

Inductive exn : Type :=
| HachoirError (msg : string)
| MissingField
| TypeError
| ValueError
| OverflowError
| ZeroDivisionError.

Inductive result (A : Type) : Type :=
| Ok (a : A)
| Raise (e : exn).
Arguments Ok {A} a.
Arguments Raise {A} e.

(** ** Floats and numbers of Python *)

Module Py.

Definition of_Z (z : Z) : float := SF2Prim (binary_normalize prec emax z 0 false).

(** Truncation toward zero of a finite float; [None] on NaN and infinities. *)
Definition trunc (x : float) : option Z :=
  match Prim2SF x with
  | S754_zero _ => Some 0
  | S754_finite s m e =>
      let a := if (0 <=? e) then Z.pos m * 2 ^ e else Z.pos m / 2 ^ (- e) in
      Some (if s then - a else a)
  | S754_infinity _ => None
  | S754_nan => None
  end.

Definition is_nan (x : float) : bool :=
  match Prim2SF x with S754_nan => true | _ => false end.

(** [float(n)] for an integer: OverflowError when it does not fit. *)
Definition float_of_int (z : Z) : result float :=
  let x := of_Z z in
  match trunc x with
  | Some _ => Ok x
  | None => Raise OverflowError
  end.

(** [int(x)] on a float. *)
Definition int_of_float (x : float) : result Z :=
  match trunc x with
  | Some z => Ok z
  | None => if is_nan x then Raise ValueError else Raise OverflowError
  end.

(** [a * b] on numbers. Operands of other kinds raise TypeError here. *)
Definition mul (a b : Value) : result Value :=
  match a, b with
  | VInt x, VInt y => Ok (VInt (x * y))
  | VFloat x, VFloat y => Ok (VFloat (x * y)%float)
  | VInt x, VFloat y =>
      match float_of_int x with
      | Ok fx => Ok (VFloat (fx * y)%float)
      | Raise e => Raise e
      end
  | VFloat x, VInt y =>
      match float_of_int y with
      | Ok fy => Ok (VFloat (x * fy)%float)
      | Raise e => Raise e
      end
  | _, _ => Raise TypeError
  end.

(** [a / b] of Python 2 on numbers: floor division on two integers, float
    division as soon as one operand is a float; a zero divisor raises. *)
Definition div (a b : Value) : result Value :=
  match a, b with
  | VInt x, VInt y =>
      if (y =? 0) then Raise ZeroDivisionError else Ok (VInt (x / y))
  | VFloat x, VFloat y =>
      if PrimFloat.eqb y 0%float then Raise ZeroDivisionError
      else Ok (VFloat (x / y)%float)
  | VInt x, VFloat y =>
      match float_of_int x with
      | Ok fx =>
          if PrimFloat.eqb y 0%float then Raise ZeroDivisionError
          else Ok (VFloat (fx / y)%float)
      | Raise e => Raise e
      end
  | VFloat x, VInt y =>
      match float_of_int y with
      | Ok fy =>
          if PrimFloat.eqb fy 0%float then Raise ZeroDivisionError
          else Ok (VFloat (x / fy)%float)
      | Raise e => Raise e
      end
  | _, _ => Raise TypeError
  end.

(** [0 < v] on a number. *)
Definition zero_lt (v : Value) : result bool :=
  match v with
  | VInt z => Ok (0 <? z)
  | VFloat x => Ok (PrimFloat.ltb 0%float x)
  | VBool b => Ok b
  | _ => Raise TypeError
  end.

(** Truth value of an object: [not value] is its negation. *)
Definition truthy (v : Value) : bool :=
  match v with
  | VNone => false
  | VBool b => b
  | VInt z => negb (z =? 0)
  | VFloat x => negb (PrimFloat.eqb x 0%float)
  | VStr s | VUni s => negb (String.eqb s "")
  | VTimedelta us => negb (us =? 0)
  | VDatetime _ => true
  | VPair _ _ => true
  end.

(** [datetime.timedelta]: microsecond resolution, at most 999999999 days. *)
Definition us_per_day : Z := 86400 * 1000000.

Definition timedelta_in_range (us : Z) : result Value :=
  let days := us / us_per_day in
  if (-999999999 <=? days) && (days <=? 999999999) then Ok (VTimedelta us)
  else Raise OverflowError.

(** Rounding of the left-over fraction of a microsecond (half away from
    zero, computed in floating point). *)
Definition round_to_long (x : float) : Z :=
  let y := if PrimFloat.leb 0%float x then (x + 0.5)%float else (x - 0.5)%float in
  match trunc y with Some z => z | None => 0 end.

(** [timedelta(seconds=v)]. *)
Definition timedelta_seconds (v : Value) : result Value :=
  match v with
  | VInt n => timedelta_in_range (n * 1000000)
  | VBool b => timedelta_in_range (if b then 1000000 else 0)
  | VFloat x =>
      match trunc x with
      | None => if is_nan x then Raise ValueError else Raise OverflowError
      | Some ip =>
          let frac := (x - of_Z ip)%float in
          if PrimFloat.eqb frac 0%float then timedelta_in_range (ip * 1000000)
          else
            let dnum := (1000000 * frac)%float in
            match trunc dnum with
            | None => Raise OverflowError
            | Some ip2 =>
                let left := (dnum - of_Z ip2)%float in
                timedelta_in_range (ip * 1000000 + ip2 + round_to_long left)
            end
      end
  | _ => Raise TypeError
  end.

End Py.

(** Modelled from the spec: the duration-in-seconds of a duration value
    ([hachoir_core.tools.timedelta2seconds] is not under src/):
    [microseconds / 1000000.0 + seconds + days * 86400]. *)
Definition timedelta2seconds (v : Value) : result float :=
  match v with
  | VTimedelta us =>
      let days := us / Py.us_per_day in
      let rest := us mod Py.us_per_day in
      let seconds := rest / 1000000 in
      let micro := rest mod 1000000 in
      Ok (Py.of_Z micro / 1000000 + Py.of_Z seconds + Py.of_Z (days * 86400))%float
  | _ => Raise TypeError
  end.

(** ** The field tree *)

Record Name : Type := MkName { n_base : string; n_index : option nat }.

#[global] Instance Name_eq_dec : EqDecision Name.
Proof. solve_decision. Defined.

#[local] Unset Elimination Schemes.
Inductive Field : Type :=
| MkField (name : Name) (value : Value) (display : string)
          (description : string) (size : Z) (children : list Field).
#[local] Set Elimination Schemes.

Definition f_name (f : Field) : Name := let (n, _, _, _, _, _) := f in n.
Definition f_value (f : Field) : Value := let (_, v, _, _, _, _) := f in v.
Definition f_display (f : Field) : string := let (_, _, d, _, _, _) := f in d.
Definition f_description (f : Field) : string := let (_, _, _, d, _, _) := f in d.
Definition f_size (f : Field) : Z := let (_, _, _, _, s, _) := f in s.
Definition f_children (f : Field) : list Field := let (_, _, _, _, _, c) := f in c.

(** [field.name.startswith("Info[")]: an element of the array [Info]. *)
Definition name_startswith_array (f : Field) (base : string) : bool :=
  bool_decide (n_base (f_name f) = base) && bool_decide (is_Some (n_index (f_name f))).

Module Path.

Fixpoint split_on (c : ascii) (s acc : string) : list string :=
  match s with
  | EmptyString => [String.rev acc]
  | String a s' =>
      if Ascii.eqb a c then String.rev acc :: split_on c s' ""
      else split_on c s' (String a acc)
  end.

Definition digit (a : ascii) : option nat :=
  let n := nat_of_ascii a in
  if (48 <=? n)%nat && (n <=? 57)%nat then Some (n - 48)%nat else None.

Fixpoint digits (s : string) (acc : nat) : option nat :=
  match s with
  | EmptyString => Some acc
  | String a s' =>
      match digit a with
      | Some d => digits s' (10 * acc + d)%nat
      | None => None
      end
  end.

(** ["Segment[0]"] is [Segment] at index 0; a name without brackets has no
    index. *)
Definition parse_name (s : string) : Name :=
  match split_on "[" s "" with
  | [base; rest] =>
      match split_on "]" rest "" with
      | [ds; ""] =>
          match ds, digits ds 0 with
          | String _ _, Some n => MkName base (Some n)
          | _, _ => MkName s None
          end
      | _ => MkName s None
      end
  | _ => MkName s None
  end.

End Path.

Definition path (s : string) : list Name := map Path.parse_name (Path.split_on "/" s "").

Definition lookup_child (n : Name) (cs : list Field) : option Field :=
  List.find (fun c => bool_decide (f_name c = n)) cs.

(** [field[p]] as an option: [None] is the MissingField case. *)
Fixpoint getField (f : Field) (p : list Name) : option Field :=
  match p with
  | [] => Some f
  | n :: p' =>
      match lookup_child n (f_children f) with
      | Some c => getField c p'
      | None => None
      end
  end.

Definition field_at (f : Field) (p : string) : option Field := getField f (path p).

(** [p in field] *)
Definition contains (f : Field) (p : string) : bool :=
  match field_at f p with Some _ => true | None => false end.

(** Elements [base[i]], [base[i+1]], ... of a field set, up to the first
    missing index. The number of children bounds the iteration. *)
Fixpoint array_from (cs : list Field) (base : string) (i fuel : nat) : list Field :=
  match fuel with
  | O => []
  | S fuel' =>
      match lookup_child (MkName base (Some i)) cs with
      | Some c => c :: array_from cs base (S i) fuel'
      | None => []
      end
  end.

Definition array_of (f : Field) (base : string) : list Field :=
  array_from (f_children f) base 0 (length (f_children f)).


(** ** Computations on a record: state kept across exceptions *)

Definition M (S A : Type) : Type := S -> S * result A.

Definition ret {S A} (a : A) : M S A := fun s => (s, Ok a).
Definition raise {S A} (e : exn) : M S A := fun s => (s, Raise e).
Definition bind {S A B} (c : M S A) (k : A -> M S B) : M S B :=
  fun s =>
    match c s with
    | (s', Ok a) => k a s'
    | (s', Raise e) => (s', Raise e)
    end.

Notation "x <~ c ;; k" := (bind c (fun x => k))
  (at level 20, c at level 99, k at level 200, only parsing).
Notation "c ;; k" := (bind c (fun _ => k))
  (at level 100, k at level 200, only parsing, right associativity).

Definition lift {S A} (r : result A) : M S A := fun s => (s, r).
Definition when {S} (b : bool) (c : M S unit) : M S unit := if b then c else ret tt.

(** [for x in xs: body(x)] *)
Fixpoint mfor {S X} (xs : list X) (body : X -> M S unit) : M S unit :=
  match xs with
  | [] => ret tt
  | x :: xs' => body x ;; mfor xs' body
  end.

(** [field[p]], [field[p].value], [field[p].display] *)
Definition field {S} (f : Field) (p : string) : M S Field :=
  match field_at f p with
  | Some c => ret c
  | None => raise MissingField
  end.
Definition value_at {S} (f : Field) (p : string) : M S Value :=
  c <~ field f p ;; ret (f_value c).
Definition display_at {S} (f : Field) (p : string) : M S string :=
  c <~ field f p ;; ret (f_display c).

(** [field.array(p)]: the field set is the one at the path before the last
    ["/"], looked up when the array is made; its elements are those named
    by the last component. *)
Definition array {S} (f : Field) (p : string) : M S (list Field) :=
  let comps := Path.split_on "/" p "" in
  match getField f (map Path.parse_name (removelast comps)) with
  | Some fs => ret (array_of fs (List.last comps ""))
  | None => raise MissingField
  end.

(** [int(v)] *)
Definition py_int (int_of_str : string -> result Z) (v : Value) : result Value :=
  match v with
  | VInt z => Ok (VInt z)
  | VBool b => Ok (VInt (if b then 1 else 0))
  | VFloat x =>
      match Py.int_of_float x with
      | Ok z => Ok (VInt z)
      | Raise e => Raise e
      end
  | VStr s | VUni s =>
      match int_of_str s with
      | Ok z => Ok (VInt z)
      | Raise e => Raise e
      end
  | _ => Raise TypeError
  end.

(** ** The metadata record *)

Abbreviation Metadata := (gmap string (list Value)).

Fixpoint value_eqb (a b : Value) : bool :=
  match a, b with
  | VNone, VNone => true
  | VBool x, VBool y => Bool.eqb x y
  | VInt x, VInt y => (x =? y)
  | VFloat x, VFloat y => PrimFloat.eqb x y
  | VStr x, VStr y | VUni x, VUni y => String.eqb x y
  | VTimedelta x, VTimedelta y | VDatetime x, VDatetime y => (x =? y)
  | VPair v s, VPair w t => value_eqb v w && String.eqb s t
  | _, _ => false
  end.

Definition is_empty (v : Value) : bool :=
  match v with
  | VNone => true
  | VStr s | VUni s => String.eqb s ""
  | _ => false
  end.

Definition values (m : Metadata) (key : string) : list Value := default [] (m !! key).

(** Modelled from the spec: the record's [setAttribute(key, value)]
    ([hachoir_metadata.metadata.Metadata] is not under src/): it appends a
    non-empty candidate, ignoring duplicates. *)
Definition setAttribute (key : string) (v : Value) (m : Metadata) : Metadata :=
  if is_empty v then m
  else if existsb (value_eqb v) (values m key) then m
  else <[key := values m key ++ [v]]> m.

(** Modelled from the spec: [has(key)], and [get(key)], the current best
    value of an attribute, the last candidate written (last write wins). *)
Definition has (m : Metadata) (key : string) : bool :=
  match values m key with [] => false | _ => true end.
Definition get (m : Metadata) (key : string) : option Value := list.last (values m key).

Record Group : Type := MkGroup {
  g_key : string;
  g_index : nat;
  g_header : option string;
  g_meta : Metadata
}.

Record MultipleMetadata : Type := MkMultiple {
  attrs : Metadata;
  groups : list Group
}.

Definition empty_record : MultipleMetadata := MkMultiple ∅ [].

Definition group_count (key : string) (gs : list Group) : nat :=
  length (filter (fun g => g_key g = key) gs).

(** Modelled from the spec: [addGroup(name, record, description)] appends a
    child record under an auto-incrementing per-name index, in call order. *)
Definition add_group (key : string) (meta : Metadata) (header : option string)
    (r : MultipleMetadata) : MultipleMetadata :=
  MkMultiple (attrs r) (groups r ++ [MkGroup key (group_count key (groups r)) header meta]).

(** [meta.key = v] on a plain record, [self.key = v] and [self.addGroup]
    on a record with groups. *)
Definition setattr (key : string) (v : Value) : M Metadata unit :=
  fun m => (setAttribute key v m, Ok tt).
Definition self_setattr (key : string) (v : Value) : M MultipleMetadata unit :=
  fun r => (MkMultiple (setAttribute key v (attrs r)) (groups r), Ok tt).
Definition addGroup (key : string) (meta : Metadata) (header : option string)
    : M MultipleMetadata unit :=
  fun r => (add_group key meta header r, Ok tt).

(** [meta = Metadata(); body(meta)]: the fresh record once the body has
    finished; an exception of the body goes on. *)
Definition on_new {S} (body : M Metadata unit) : M S Metadata :=
  fun s =>
    match body ∅ with
    | (m, Ok _) => (s, Ok m)
    | (_, Raise e) => (s, Raise e)
    end.

(** [try: body except MissingField: pass] on the record itself *)
Definition try_missing {S} (body : M S unit) : M S unit :=
  fun s =>
    match body s with
    | (s', Raise MissingField) => (s', Ok tt)
    | other => other
    end.

(** [self.has(key)], [self.get(key)] ([None] of the model is NotFound) *)
Definition self_has (key : string) : M MultipleMetadata bool :=
  fun r => (r, Ok (has (attrs r) key)).
Definition self_get (key : string) : M MultipleMetadata Value :=
  fun r =>
    match get (attrs r) key with
    | Some v => (r, Ok v)
    | None => (r, Raise ValueError)
    end.

(** [meta = Metadata(); try: body(meta) except MissingField: pass]: the
    fresh record as the body left it, whether it finished or a field was
    missing; any other exception goes on. *)
Definition try_on_new {S} (body : M Metadata unit) : M S Metadata :=
  fun s =>
    match body ∅ with
    | (m, Ok _) => (s, Ok m)
    | (m, Raise MissingField) => (s, Ok m)
    | (_, Raise e) => (s, Raise e)
    end.

(** ** What the extractors import *)

Record Externals : Type := MkExternals {
  gettext : string -> string;                  (* [_] *)
  dateToDatetime : Value -> result Value;      (* hachoir_parser.container.mkv *)
  makePrintable : string -> string;            (* [makePrintable(s, "ISO-8859-1", to_unicode=True)] *)
  durationWin64 : Value -> result Value;       (* hachoir_core.tools *)
  getSampleRate : Field -> result Value;       (* method of the FLV audio header *)
  field_true : Field -> bool;                  (* truth value of a field object *)
  format : string -> Value -> result string;   (* [fmt % x] for a float conversion *)
  float_floordiv : float -> float -> float;    (* [x // y] on floats *)
  str_of_object : Value -> string;             (* [str(x)] on floats, dates and tuples *)
  int_of_str : string -> result Z;             (* [int(s)] on a string *)
  TYPE_BYTE_ARRAY : Value                      (* [ASF_Descriptor.TYPE_BYTE_ARRAY] *)
}.

Definition text_of (v : Value) : option string :=
  match v with
  | VStr s | VUni s => Some s
  | _ => None
  end.

(** [v in (s1, s2, ...)] and [v == s] for string constants *)
Definition value_in (v : Value) (l : list string) : bool :=
  match text_of v with
  | Some s => existsb (String.eqb s) l
  | None => false
  end.

(** A class-level table such as [tag_key] or [EXT_DESC_TO_ATTR] *)
Fixpoint table_get (k : string) (t : list (string * string)) : option string :=
  match t with
  | [] => None
  | (k', a) :: t' => if String.eqb k k' then Some a else table_get k t'
  end.

(** ** Matroska *)

Module MkvMetadata.
Section Extractor.
Variable ext : Externals.

Definition tag_key : list (string * string) :=
  [ ("TITLE", "title");
    ("URL", "url");
    ("COPYRIGHT", "copyright");
    ("DATE_RECORDED", "creation_date");
    ("SUBTITLE", "subtitle_author") ].

Definition processInfo (info : Field) : M MultipleMetadata unit :=
  positive <~ (if contains info "Duration/float"
                  && contains info "TimecodeScale/unsigned"
               then d <~ value_at info "Duration/float" ;; lift (Py.zero_lt d)
               else ret false) ;;
  when positive (
    d <~ value_at info "Duration/float" ;;
    s <~ value_at info "TimecodeScale/unsigned" ;;
    ds <~ lift (Py.mul d s) ;;
    seconds <~ lift (Py.mul ds (VFloat 1e-9)) ;;
    delta <~ lift (Py.timedelta_seconds seconds) ;;
    self_setattr "duration" delta) ;;
  when (contains info "DateUTC/date") (
    v <~ value_at info "DateUTC/date" ;;
    d <~ lift (dateToDatetime ext v) ;;
    self_setattr "creation_date" d) ;;
  when (contains info "WritingApp/unicode") (
    v <~ value_at info "WritingApp/unicode" ;;
    self_setattr "producer" v) ;;
  when (contains info "MuxingApp/unicode") (
    v <~ value_at info "MuxingApp/unicode" ;;
    self_setattr "producer" v) ;;
  when (contains info "Title/unicode") (
    v <~ value_at info "Title/unicode" ;;
    self_setattr "title" v).

Definition processSimpleTag (tag : Field) : M MultipleMetadata unit :=
  if negb (contains tag "TagName/unicode") || negb (contains tag "TagString/unicode")
  then ret tt
  else
    name <~ value_at tag "TagName/unicode" ;;
    match text_of name with
    | None => ret tt
    | Some n =>
        match table_get n tag_key with
        | None => ret tt
        | Some key =>
            value <~ value_at tag "TagString/unicode" ;;
            self_setattr key value
        end
    end.

Definition processTag (tag : Field) : M MultipleMetadata unit :=
  fields <~ array tag "SimpleTag" ;;
  mfor fields processSimpleTag.

Definition trackCommon (track : Field) : M Metadata unit :=
  when (contains track "Name/unicode") (
    v <~ value_at track "Name/unicode" ;;
    setattr "title" v) ;;
  known <~ (if contains track "Language/string"
            then v <~ value_at track "Language/string" ;;
                 ret (negb (value_in v ["mis"; "und"]))
            else ret false) ;;
  when known (
    d <~ display_at track "Language/string" ;;
    setattr "language" (VUni d)).

(** The [try] blocks of the three track methods *)
Definition video_body (track : Field) : M Metadata unit :=
  trackCommon track ;;
  c <~ value_at track "CodecID/string" ;;
  setattr "compression" c ;;
  when (contains track "Video") (
    w <~ value_at track "Video/PixelWidth/unsigned" ;;
    setattr "width" w ;;
    h <~ value_at track "Video/PixelHeight/unsigned" ;;
    setattr "height" h).

Definition audio_body (track : Field) : M Metadata unit :=
  trackCommon track ;;
  when (contains track "Audio") (
    f <~ value_at track "Audio/SamplingFrequency/float" ;;
    rate <~ lift (py_int (int_of_str ext) f) ;;
    setattr "sample_rate" rate ;;
    n <~ value_at track "Audio/Channels/unsigned" ;;
    setattr "nb_channel" n) ;;
  c <~ value_at track "CodecID/string" ;;
  setattr "compression" c.

Definition subtitle_body (track : Field) : M Metadata unit :=
  trackCommon track ;;
  c <~ value_at track "CodecID/string" ;;
  setattr "compression" c.

Definition processVideo (track : Field) : M MultipleMetadata unit :=
  video <~ try_on_new (video_body track) ;;
  addGroup "video[]" video (Some "Video stream").

Definition processAudio (track : Field) : M MultipleMetadata unit :=
  audio <~ try_on_new (audio_body track) ;;
  addGroup "audio[]" audio (Some "Audio stream").

Definition processSubtitle (track : Field) : M MultipleMetadata unit :=
  sub <~ try_on_new (subtitle_body track) ;;
  addGroup "subtitle[]" sub (Some "Subtitle").

Definition processTrack (track : Field) : M MultipleMetadata unit :=
  if negb (contains track "TrackType/enum") then ret tt
  else
    kind <~ display_at track "TrackType/enum" ;;
    if String.eqb kind "video" then processVideo track
    else if String.eqb kind "audio" then processAudio track
    else if String.eqb kind "subtitle" then processSubtitle track
    else ret tt.

Definition processTracks (tracks : Field) : M MultipleMetadata unit :=
  entries <~ array tracks "TrackEntry" ;;
  mfor entries processTrack.

Definition processSegment (segment : Field) : M MultipleMetadata unit :=
  mfor (f_children segment) (fun fld =>
    if name_startswith_array fld "Info" then processInfo fld
    else if name_startswith_array fld "Tags" then
      tags <~ array fld "Tag" ;;
      mfor tags processTag
    else if name_startswith_array fld "Tracks" then processTracks fld
    else ret tt).

Definition extract (mkv : Field) : M MultipleMetadata unit :=
  if negb (contains mkv "Segment[0]")
  then raise (HachoirError (gettext ext "Invalid Matroska video"))
  else
    segments <~ array mkv "Segment" ;;
    mfor segments processSegment.

End Extractor.
End MkvMetadata.

(** ** Flash video *)

Module FlvMetadata.
Section Extractor.
Variable ext : Externals.

Definition extractAMF (amf : Field) : M MultipleMetadata unit :=
  entries <~ array amf "item" ;;
  mfor entries (fun entry =>
    key <~ value_at entry "key" ;;
    if value_in key ["duration"] then
      v <~ value_at entry "value" ;;
      delta <~ lift (Py.timedelta_seconds v) ;;
      self_setattr "duration" delta
    else if value_in key ["creator"] then
      v <~ value_at entry "value" ;;
      self_setattr "producer" v
    else if value_in key ["audiosamplerate"] then
      v <~ value_at entry "value" ;;
      n <~ lift (py_int (int_of_str ext) v) ;;
      self_setattr "sample_rate" n
    else if value_in key ["framerate"] then
      v <~ value_at entry "value" ;;
      self_setattr "frame_rate" v
    else if value_in key ["metadatacreator"] then
      v <~ value_at entry "value" ;;
      self_setattr "producer" v
    else if value_in key ["metadatadate"] then
      self_setattr "creation_date" (f_value entry)
    else if value_in key ["width"] then
      v <~ value_at entry "value" ;;
      n <~ lift (py_int (int_of_str ext) v) ;;
      self_setattr "width" n
    else if value_in key ["height"] then
      v <~ value_at entry "value" ;;
      n <~ lift (py_int (int_of_str ext) v) ;;
      self_setattr "height" n
    else ret tt).

Definition audio_meta (audio : Field) : M Metadata unit :=
  rate <~ lift (getSampleRate ext audio) ;;
  setattr "sample_rate" rate ;;
  is16 <~ value_at audio "is_16bit" ;;
  (if Py.truthy is16 then setattr "bits_per_sample" (VInt 16)
   else setattr "bits_per_sample" (VInt 8)) ;;
  codec <~ display_at audio "codec" ;;
  (if String.eqb codec "MP3" && contains audio "music_data" then
     music <~ field audio "music_data" ;;
     setattr "compression" (VUni (f_description music))
   else
     codec' <~ display_at audio "codec" ;;
     setattr "compression" (VUni codec')) ;;
  stereo <~ value_at audio "is_stereo" ;;
  if Py.truthy stereo then setattr "nb_channel" (VInt 2)
  else setattr "nb_channel" (VInt 1).

Definition video_meta (video : Field) : M Metadata unit :=
  codec <~ display_at video "codec" ;;
  setattr "compression" (VUni codec).

(** Everything [extract] does before it derives the bit rate *)
Definition extract_streams (flv : Field) : M MultipleMetadata unit :=
  when (contains flv "audio[0]") (
    audio <~ field flv "audio[0]" ;;
    meta <~ on_new (audio_meta audio) ;;
    addGroup "audio" meta None) ;;
  when (contains flv "video[0]") (
    video <~ field flv "video[0]" ;;
    meta <~ on_new (video_meta video) ;;
    addGroup "video" meta None) ;;
  self_setattr "format_version" (VUni (f_description flv)) ;;
  when (contains flv "metadata/entry[1]") (
    amf <~ field flv "metadata/entry[1]" ;;
    extractAMF amf).

Definition derive_bit_rate (flv : Field) : M MultipleMetadata unit :=
  known <~ self_has "duration" ;;
  when known (
    d <~ self_get "duration" ;;
    secs <~ lift (timedelta2seconds d) ;;
    rate <~ lift (Py.div (VInt (f_size flv)) (VFloat secs)) ;;
    self_setattr "bit_rate" rate).

Definition extract (flv : Field) : M MultipleMetadata unit :=
  extract_streams flv ;;
  derive_bit_rate flv.

End Extractor.
End FlvMetadata.

(** ** QuickTime *)

Module MovMetadata.
Section Extractor.
Variable ext : Externals.

(** [float(v)] on a number *)
Definition py_float (v : Value) : result Value :=
  match v with
  | VInt z =>
      match Py.float_of_int z with
      | Ok x => Ok (VFloat x)
      | Raise e => Raise e
      end
  | VBool b => Ok (VFloat (if b then 1 else 0)%float)
  | VFloat x => Ok (VFloat x)
  | _ => Raise TypeError
  end.

(** [x // n] for a float [x] *)
Definition floordiv (v : Value) (n : Z) : result Value :=
  match v with
  | VFloat x => Ok (VFloat (float_floordiv ext x (Py.of_Z n)))
  | VInt z => if (n =? 0) then Raise ZeroDivisionError else Ok (VInt (z / n))
  | _ => Raise TypeError
  end.

Definition processMovieHeader (hdr : Field) : M Metadata unit :=
  ticks <~ value_at hdr "duration" ;;
  ms <~ lift (Py.mul ticks (VInt 1000)) ;;
  scale <~ value_at hdr "time_scale" ;;
  duration <~ lift (Py.div ms scale) ;;
  setattr "duration" duration ;;
  creat <~ display_at hdr "creat_date" ;;
  setattr "creation_date" (VUni creat) ;;
  lastmod <~ display_at hdr "lastmod_date" ;;
  setattr "last_modification" (VUni lastmod) ;;
  speed <~ value_at hdr "play_speed" ;;
  speed100 <~ lift (Py.mul speed (VInt 100)) ;;
  text <~ lift (format ext (gettext ext "Play speed: %.1f%%") speed100) ;;
  setattr "comment" (VUni text) ;;
  volume <~ value_at hdr "volume" ;;
  fvol <~ lift (py_float volume) ;;
  vol100 <~ lift (Py.mul fvol (VInt 100)) ;;
  percent <~ lift (floordiv vol100 255) ;;
  text' <~ lift (format ext (gettext ext "User volume: %.1f%%") percent) ;;
  setattr "comment" (VUni text').

Definition processMovie (atom : Field) : M Metadata unit :=
  mfor (f_children atom) (fun fld =>
    when (contains fld "movie_hdr") (
      hdr <~ field fld "movie_hdr" ;;
      processMovieHeader hdr)).

Definition extract (mov : Field) : M Metadata unit :=
  mfor (f_children mov) (fun atom =>
    when (contains atom "movie") (
      movie <~ field atom "movie" ;;
      processMovie movie)).

End Extractor.
End MovMetadata.

(** ** ASF / WMV *)

Module AsfMetadata.

(** The dictionary [data]: each key with its kind ([true] for a byte
    string) and its value. Assigning to a key already there keeps the key
    object and replaces the value. [iteritems] enumerates it in the order
    of [map_to_list], which no statement below depends on. *)
Abbreviation Data := (gmap string (bool * Value)).

Section Extractor.
Variable ext : Externals.

Definition EXT_DESC_TO_ATTR : list (string * string) :=
  [ ("Encoder", "producer");
    ("ToolName", "producer");
    ("AlbumTitle", "album");
    ("Track", "track_number");
    ("TrackNumber", "track_number");
    ("Year", "creation_date") ].

Definition SKIP_EXT_DESC : list string :=
  [ "WMFSDKNeeded"; "WMFSDKVersion"; "Buffer Average"; "VBR Peak" ].

(** [str(v)], the [%s] conversion *)
Definition py_str (v : Value) : string :=
  match v with
  | VStr s | VUni s => s
  | VInt z => pretty z
  | VBool b => if b then "True" else "False"
  | VNone => "None"
  | other => str_of_object ext other
  end.

Definition is_uni (v : Value) : bool :=
  match v with VUni _ => true | _ => false end.

(** The result of [%]-formatting is text as soon as one argument is. *)
Definition text_value (uni : bool) (s : string) : Value :=
  if uni then VUni s else VStr s.

(** [key.split("/", 1)[1]] when ["/" in key] *)
Fixpoint after_slash (s : string) : option string :=
  match s with
  | EmptyString => None
  | String a s' => if Ascii.eqb a "/" then Some s' else after_slash s'
  end.

(** [v == n] for an integer constant *)
Definition py_eq_int (v : Value) (n : Z) : bool :=
  match v with
  | VInt z => (z =? n)
  | VBool b => ((if b then 1 else 0) =? n)
  | VFloat x => PrimFloat.eqb x (Py.of_Z n)
  | _ => false
  end.


Definition data_set (k : string) (is_str : bool) (v : Value) (data : Data) : Data :=
  match data !! k with
  | Some (kind, _) => <[k := (kind, v)]> data
  | None => <[k := (is_str, v)]> data
  end.

(** One turn of the loop over the descriptors (lines 227-243) *)
Definition read_descriptor {S} (data : Data) (desc : Field) : M S Data :=
  ty <~ value_at desc "type" ;;
  if value_eqb ty (TYPE_BYTE_ARRAY ext) then ret data
  else
    key <~ value_at desc "name" ;;
    if value_in key SKIP_EXT_DESC then ret data
    else
      value <~ value_at desc "value" ;;
      let value := match value with
                   | VStr s => VUni (makePrintable ext s)
                   | _ => value
                   end in
      match key with
      | VStr k | VUni k =>
          let k' := match after_slash k with Some rest => rest | None => k end in
          if negb (Py.truthy value) then ret data
          else ret (data_set k' (negb (is_uni key)) value data)
      | _ => raise TypeError
      end.

Fixpoint read_descriptors {S} (descs : list Field) (data : Data) : M S Data :=
  match descs with
  | [] => ret data
  | desc :: descs' =>
      data' <~ read_descriptor data desc ;;
      read_descriptors descs' data'
  end.

(** Lines 246-249 *)
Definition merge_tool (data : Data) : M MultipleMetadata Data :=
  match data !! "ToolName", data !! "ToolVersion" with
  | Some (_, name), Some (_, version) =>
      self_setattr "producer"
        (text_value (is_uni name || is_uni version)
           (py_str name +:+ " (version " +:+ py_str version +:+ ")")) ;;
      ret (delete "ToolVersion" (delete "ToolName" data))
  | _, _ => ret data
  end.

(** Lines 252-254 *)
Definition take_vbr (data : Data) : option bool * Data :=
  match data !! "IsVBR" with
  | Some (_, v) => (Some (py_eq_int v 1), delete "IsVBR" data)
  | None => (None, data)
  end.

(** One turn of the loop that stores [data] (lines 257-265) *)
Definition store_item (item : string * (bool * Value)) : M MultipleMetadata unit :=
  let '(key, (is_str, value)) := item in
  match table_get key EXT_DESC_TO_ATTR with
  | Some attr => self_setattr attr value
  | None =>
      let key' := if is_str then makePrintable ext key else key in
      self_setattr "comment" (VUni (key' +:+ "=" +:+ py_str value))
  end.

Definition store (data : Data) : M MultipleMetadata unit :=
  mfor (map_to_list data) store_item.

(** The body of [if "ext_desc/content" in header], given the descriptors *)
Definition process_descriptors (descs : list Field) : M MultipleMetadata (option bool) :=
  data <~ read_descriptors descs ∅ ;;
  data1 <~ merge_tool data ;;
  let '(is_vbr, data2) := take_vbr data1 in
  store data2 ;;
  ret is_vbr.

Definition ext_desc_block (header : Field) : M MultipleMetadata (option bool) :=
  if contains header "ext_desc/content" then
    descs <~ array header "ext_desc/content/descriptor" ;;
    process_descriptors descs
  else ret None.

(** Lines 275-280 *)
Definition bit_rate_text (is_vbr : option bool) (text : string) : string :=
  match is_vbr with
  | Some true => "VBR (" +:+ text +:+ " max)"
  | Some false => text +:+ " (CBR)"
  | None => text +:+ " (max)"
  end.

Definition file_prop_block (header : Field) (is_vbr : option bool)
    : M MultipleMetadata unit :=
  when (contains header "file_prop/content") (
    prop <~ field header "file_prop/content" ;;
    created <~ value_at prop "creation_date" ;;
    self_setattr "creation_date" created ;;
    ticks <~ value_at prop "play_duration" ;;
    duration <~ lift (durationWin64 ext ticks) ;;
    self_setattr "duration" duration ;;
    seekable <~ field prop "seekable" ;;
    when (field_true ext seekable) (self_setattr "comment" (VUni "Is seekable")) ;;
    value <~ value_at prop "max_bitrate" ;;
    text <~ display_at prop "max_bitrate" ;;
    self_setattr "bit_rate" (VPair value (bit_rate_text is_vbr text))).

Definition codec_text {S} (codec : Field) : M S Value :=
  text <~ value_at codec "name" ;;
  described <~ (if contains codec "desc"
                then d <~ value_at codec "desc" ;; ret (Py.truthy d)
                else ret false) ;;
  if (described : bool) then
    d <~ value_at codec "desc" ;;
    ret (text_value (is_uni text || is_uni d)
           (py_str text +:+ " (" +:+ py_str d +:+ ")"))
  else ret text.

Fixpoint codec_loop {S} (codecs : list Field) (compression : list Value)
    : M S (list Value) :=
  match codecs with
  | [] => ret compression
  | codec :: codecs' =>
      if contains codec "name" then
        text <~ codec_text codec ;;
        codec_loop codecs' (compression ++ [text])
      else codec_loop codecs' compression
  end.

Definition codec_list_block {S} (header : Field) : M S (list Value) :=
  if contains header "codec_list/content" then
    codecs <~ array header "codec_list/content/codec" ;;
    codec_loop codecs []
  else ret [].

Definition meta_has (key : string) : M Metadata bool :=
  fun m => (m, Ok (has m key)).

Definition streamProperty (header : Field) (index : nat) : M Metadata unit :=
  let key := "bit_rates/content/bit_rate[" +:+ pretty index +:+ "]/avg_bitrate" in
  when (contains header key) (
    v <~ value_at header key ;;
    setattr "bit_rate" v).

Definition audio_stream (header : Field) (index : nat) (audio : Field) : M Metadata unit :=
  streamProperty header index ;;
  known <~ meta_has "compression" ;;
  when (negb known) (
    d <~ display_at audio "twocc" ;;
    setattr "compression" (VUni d)) ;;
  rate <~ value_at audio "sample_rate" ;;
  setattr "sample_rate" rate ;;
  bits <~ value_at audio "bits_per_sample" ;;
  setattr "bits_per_sample" bits.

Definition video_stream (header : Field) (index : nat) (video : Field) : M Metadata unit :=
  streamProperty header index ;;
  w <~ value_at video "width" ;;
  setattr "width" w ;;
  h <~ value_at video "height" ;;
  setattr "height" h ;;
  when (contains video "bmp_info") (
    bmp_info <~ field video "bmp_info" ;;
    known <~ meta_has "compression" ;;
    when (negb known) (
      d <~ display_at bmp_info "codec" ;;
      setattr "compression" (VUni d)) ;;
    bpp <~ value_at bmp_info "bpp" ;;
    setattr "bits_per_pixel" bpp).

(** The loop over [enumerate(header.array("stream_prop"))] with its two
    counters *)
Fixpoint stream_loop (header : Field) (props : list Field)
    (index audio_index video_index : nat) : M MultipleMetadata unit :=
  match props with
  | [] => ret tt
  | stream_prop :: props' =>
      if contains stream_prop "content/audio_header" then
        audio <~ field stream_prop "content/audio_header" ;;
        meta <~ on_new (audio_stream header index audio) ;;
        addGroup ("audio[" +:+ pretty audio_index +:+ "]") meta
                 (Some ("Audio stream #" +:+ pretty audio_index)) ;;
        stream_loop header props' (S index) (S audio_index) video_index
      else if contains stream_prop "content/video_header" then
        video <~ field stream_prop "content/video_header" ;;
        meta <~ on_new (video_stream header index video) ;;
        addGroup ("video[" +:+ pretty video_index +:+ "]") meta
                 (Some ("Video stream #" +:+ pretty video_index)) ;;
        stream_loop header props' (S index) audio_index (S video_index)
      else stream_loop header props' (S index) audio_index video_index
  end.

Definition metadata_block (header : Field) : M MultipleMetadata unit :=
  when (contains header "metadata/content") (
    info <~ field header "metadata/content" ;;
    try_missing (
      title <~ value_at info "title" ;;
      self_setattr "title" title ;;
      author <~ value_at info "author" ;;
      self_setattr "author" author ;;
      copyright <~ value_at info "copyright" ;;
      self_setattr "copyright" copyright)).

Definition processHeader (header : Field) : M MultipleMetadata unit :=
  is_vbr <~ ext_desc_block header ;;
  file_prop_block header is_vbr ;;
  compression <~ codec_list_block header ;;
  props <~ array header "stream_prop" ;;
  stream_loop header props 0 1 1 ;;
  metadata_block header.

Definition extract (asf : Field) : M MultipleMetadata unit :=
  when (contains asf "header/content") (
    header <~ field asf "header/content" ;;
    processHeader header).

End Extractor.
End AsfMetadata.

(** ** A sample environment and sample trees, for the examples *)

Definition sample_ext : Externals := {|
  gettext := fun s => s;
  dateToDatetime := fun v =>
    match v with VInt ns => Ok (VDatetime (ns / 1000)) | _ => Raise TypeError end;
  makePrintable := fun s => s;
  durationWin64 := fun v =>
    match v with VInt t => Py.timedelta_in_range (t / 10) | _ => Raise TypeError end;
  getSampleRate := fun _ => Ok (VInt 44100);
  field_true := fun _ => true;
  format := fun fmt _ => Ok fmt;
  float_floordiv := fun x y => (x / y)%float;
  str_of_object := fun _ => "<object>";
  int_of_str := fun _ => Raise ValueError;
  TYPE_BYTE_ARRAY := VInt 1
|}.

(** A leaf [name] (or [name[i]]) with a value and its display text, and a
    field set with children *)
Definition leaf (name : string) (v : Value) (display : string) : Field :=
  MkField (Path.parse_name name) v display "" 0 [].
Definition node (name : string) (children : list Field) : Field :=
  MkField (Path.parse_name name) VNone "" "" 0 children.

(** A tree with no section at all *)
Definition empty_tree : Field := node "root" [].

(** A movie header of 90000 ticks at 600 ticks per second *)
Definition sample_movie_hdr : Field :=
  node "movie_hdr"
    [ leaf "duration" (VInt 90000) "90000";
      leaf "time_scale" (VInt 600) "600";
      leaf "creat_date" (VInt 0) "2005-10-20 17:11:18";
      leaf "lastmod_date" (VInt 0) "2005-10-20 17:11:20";
      leaf "play_speed" (VFloat 1) "1.0";
      leaf "volume" (VInt 255) "255" ].

(** An Info block: 5000 ticks of 1,000,000 ns, two applications *)
Definition sample_info : Field :=
  node "Info[0]"
    [ node "TimecodeScale" [ leaf "unsigned" (VInt 1000000) "1000000" ];
      node "Duration" [ leaf "float" (VFloat 5000) "5000.0" ];
      node "MuxingApp" [ leaf "unicode" (VUni "libebml v0.7.7") "libebml v0.7.7" ];
      node "WritingApp" [ leaf "unicode" (VUni "mkvmerge v1.7.0") "mkvmerge v1.7.0" ] ].

(** An Info block whose muxing application is the empty string *)
Definition info_empty_muxing : Field :=
  node "Info[0]"
    [ node "MuxingApp" [ leaf "unicode" (VUni "") "" ];
      node "WritingApp" [ leaf "unicode" (VUni "mkvmerge v1.7.0") "mkvmerge v1.7.0" ] ].

(** An FLV tree of 1,000,000 units with a side-channel duration of 12.5
    seconds and two stream headers of each kind *)
Definition sample_flv : Field :=
  MkField (MkName "root" None) VNone "" "Macromedia Flash video version 1" 1000000
    [ node "header" [];
      node "metadata"
        [ leaf "entry[0]" (VStr "onMetaData") "onMetaData";
          node "entry[1]"
            [ node "item[0]"
                [ leaf "key" (VStr "duration") "duration";
                  leaf "value" (VFloat 12.5) "12.5" ];
              node "item[1]"
                [ leaf "key" (VStr "creator") "creator";
                  leaf "value" (VStr "flvtool") "flvtool" ] ] ];
      node "audio[0]"
        [ leaf "codec" (VInt 2) "MP3";
          leaf "is_16bit" (VBool true) "True";
          leaf "is_stereo" (VBool false) "False" ];
      node "video[0]" [ leaf "codec" (VInt 2) "Sorensen H.263" ];
      node "audio[1]"
        [ leaf "codec" (VInt 2) "MP3";
          leaf "is_16bit" (VBool true) "True";
          leaf "is_stereo" (VBool false) "False" ];
      node "video[1]" [ leaf "codec" (VInt 2) "Sorensen H.263" ] ].

(** Three track entries: a video one with no codec, between a complete
    audio one and an audio one with no channel count *)
Definition track_name_only : Field :=
  node "TrackEntry[1]"
    [ node "TrackType" [ leaf "enum" (VInt 1) "video" ];
      node "Name" [ leaf "unicode" (VUni "Main feature") "Main feature" ];
      node "Video" [ node "PixelWidth" [ leaf "unsigned" (VInt 640) "640" ] ] ].

Definition track_audio_full : Field :=
  node "TrackEntry[0]"
    [ node "TrackType" [ leaf "enum" (VInt 2) "audio" ];
      node "CodecID" [ leaf "string" (VStr "A_VORBIS") "A_VORBIS" ];
      node "Audio"
        [ node "SamplingFrequency" [ leaf "float" (VFloat 44100) "44100.0" ];
          node "Channels" [ leaf "unsigned" (VInt 2) "2" ] ] ].

Definition track_audio_no_channels : Field :=
  node "TrackEntry[2]"
    [ node "TrackType" [ leaf "enum" (VInt 2) "audio" ];
      node "CodecID" [ leaf "string" (VStr "A_AAC") "A_AAC" ];
      node "Language" [ leaf "string" (VStr "fre") "French" ];
      node "Audio"
        [ node "SamplingFrequency" [ leaf "float" (VFloat 48000) "48000.0" ] ] ].

Definition sample_tracks : Field :=
  node "Tracks[0]" [ track_audio_full; track_name_only; track_audio_no_channels ].

(** [sample_flv] without its second audio and video headers *)
Definition sample_flv_single : Field :=
  MkField (MkName "root" None) VNone "" "Macromedia Flash video version 1" 1000000
    [ node "header" [];
      node "metadata"
        [ leaf "entry[0]" (VStr "onMetaData") "onMetaData";
          node "entry[1]"
            [ node "item[0]"
                [ leaf "key" (VStr "duration") "duration";
                  leaf "value" (VFloat 12.5) "12.5" ];
              node "item[1]"
                [ leaf "key" (VStr "creator") "creator";
                  leaf "value" (VStr "flvtool") "flvtool" ] ] ];
      node "audio[0]"
        [ leaf "codec" (VInt 2) "MP3";
          leaf "is_16bit" (VBool true) "True";
          leaf "is_stereo" (VBool false) "False" ];
      node "video[0]" [ leaf "codec" (VInt 2) "Sorensen H.263" ] ].

(** An extended descriptor, and a sequence of four of them *)
Definition descriptor (type : Z) (name : string) (v : Value) : Field :=
  node "descriptor"
    [ leaf "type" (VInt type) ""; leaf "name" (VUni name) name; leaf "value" v "" ].

Definition sample_descriptors : list Field :=
  [ descriptor 0 "WM/ToolName" (VUni "X");
    descriptor 0 "WM/ToolVersion" (VUni "1");
    descriptor 2 "IsVBR" (VBool true);
    descriptor 0 "Foo" (VUni "Bar") ].

(** The element [i] of an array: the field with its index set *)
Definition with_index (i : nat) (f : Field) : Field :=
  MkField (MkName (n_base (f_name f)) (Some i)) (f_value f) (f_display f)
          (f_description f) (f_size f) (f_children f).

(** An ASF file whose header holds the sample descriptors, as
    [descriptor[0]] to [descriptor[3]] *)
Definition sample_asf_header : Field :=
  node "content"
    [ node "ext_desc" [ node "content" (imap with_index sample_descriptors) ] ].

Definition sample_asf : Field :=
  node "root" [ node "header" [ sample_asf_header ] ].

(** The dictionary read from the sample descriptors *)
Definition sample_data : AsfMetadata.Data :=
  match snd (AsfMetadata.read_descriptors sample_ext sample_descriptors ∅ empty_record) with
  | Ok data => data
  | Raise _ => ∅
  end.

(** An ASF header with the VBR flag set and a maximum bit rate of 128000 *)
Definition sample_header : Field :=
  node "content"
    [ node "ext_desc"
        [ node "content"
            [ node "descriptor[0]"
                [ leaf "type" (VInt 2) "BOOL"; leaf "name" (VUni "IsVBR") "IsVBR";
                  leaf "value" (VBool true) "True" ] ] ];
      node "file_prop"
        [ node "content"
            [ leaf "creation_date" (VDatetime 0) "2005-10-20 17:11:18";
              leaf "play_duration" (VInt 50000000) "5 sec";
              leaf "seekable" (VBool true) "True";
              leaf "max_bitrate" (VInt 128000) "128.0 Kbit/sec" ] ] ].

(** Two simple tags: a lower-case name, which the table does not have, and
    a recording date *)
Definition sample_tag_unknown : Field :=
  node "SimpleTag[0]"
    [ node "TagName" [ leaf "unicode" (VUni "title") "title" ];
      node "TagString" [ leaf "unicode" (VUni "Big Buck") "Big Buck" ] ].

Definition sample_tag_date : Field :=
  node "SimpleTag[1]"
    [ node "TagName" [ leaf "unicode" (VUni "DATE_RECORDED") "DATE_RECORDED" ];
      node "TagString" [ leaf "unicode" (VUni "2006") "2006" ] ].

(** A subtitle entry whose language is undetermined, and an entry of a
    type the extractor does not know *)
Definition track_und : Field :=
  node "TrackEntry[3]"
    [ node "TrackType" [ leaf "enum" (VInt 17) "subtitle" ];
      node "Language" [ leaf "string" (VStr "und") "Undetermined" ];
      node "CodecID" [ leaf "string" (VStr "S_TEXT/UTF8") "S_TEXT/UTF8" ] ].

Definition track_buttons : Field :=
  node "TrackEntry[4]"
    [ node "TrackType" [ leaf "enum" (VInt 18) "buttons" ];
      node "CodecID" [ leaf "string" (VStr "B_VOBBTN") "B_VOBBTN" ] ].

(** An audio entry with its audio block and no codec *)
Definition track_audio_no_codec : Field :=
  node "TrackEntry[5]"
    [ node "TrackType" [ leaf "enum" (VInt 2) "audio" ];
      node "Audio"
        [ node "SamplingFrequency" [ leaf "float" (VFloat 22050.5) "22050.5" ];
          node "Channels" [ leaf "unsigned" (VInt 1) "1" ] ] ].

(** An FLV audio header for MP3 with its inline description, and an FLV
    tree whose audio header has no stereo flag *)
Definition sample_flv_audio : Field :=
  node "audio[0]"
    [ leaf "codec" (VInt 2) "MP3";
      leaf "is_16bit" (VBool true) "True";
      leaf "is_stereo" (VBool true) "True";
      MkField (MkName "music_data" None) VNone "" "MPEG-1 Layer 3" 0 [] ].

Definition sample_flv_broken : Field :=
  MkField (MkName "root" None) VNone "" "Macromedia Flash video version 1" 1000000
    [ node "audio[0]"
        [ leaf "codec" (VInt 2) "MP3"; leaf "is_16bit" (VBool true) "True" ];
      node "video[0]" [ leaf "codec" (VInt 2) "Sorensen H.263" ] ].

(** A side channel with keys the extractor does not know, and an FLV tree
    whose side channel gives a duration of zero *)
Definition sample_amf_unknown : Field :=
  node "entry[1]"
    [ node "item[0]"
        [ leaf "key" (VStr "videodatarate") "videodatarate";
          leaf "value" (VFloat 700) "700.0" ];
      node "item[1]"
        [ leaf "key" (VStr "Duration") "Duration";
          leaf "value" (VFloat 12.5) "12.5" ] ].

Definition sample_flv_zero : Field :=
  MkField (MkName "root" None) VNone "" "Macromedia Flash video version 1" 1000000
    [ node "metadata"
        [ leaf "entry[0]" (VStr "onMetaData") "onMetaData";
          node "entry[1]"
            [ node "item[0]"
                [ leaf "key" (VStr "duration") "duration";
                  leaf "value" (VFloat 0) "0.0" ] ] ] ].

(** A movie header with a time scale of zero, and a MOV tree whose only
    movie header has its duration and nothing else *)
Definition sample_hdr_zero_scale : Field :=
  node "movie_hdr"
    [ leaf "duration" (VInt 90000) "90000"; leaf "time_scale" (VInt 0) "0" ].

Definition sample_hdr_short : Field :=
  node "movie_hdr"
    [ leaf "duration" (VInt 90000) "90000"; leaf "time_scale" (VInt 600) "600" ].

Definition sample_moov : Field :=
  node "atom[1]"
    [ leaf "tag" (VStr "moov") "moov";
      node "movie"
        [ node "atom[0]" [ leaf "tag" (VStr "mvhd") "mvhd"; sample_hdr_short ] ] ].

Definition sample_mov_short : Field :=
  node "root"
    [ node "atom[0]" [ leaf "size" (VInt 32) "32"; leaf "tag" (VStr "ftyp") "ftyp" ];
      sample_moov;
      node "atom[2]" [ leaf "tag" (VStr "mdat") "mdat" ] ].

(** An ASF header with a codec list, two streams and a metadata block
    that has a title and a copyright but no author *)
Definition sample_header_streams : Field :=
  node "content"
    [ node "codec_list"
        [ node "content"
            [ node "codec[0]"
                [ leaf "name" (VUni "Windows Media Video 9") "Windows Media Video 9";
                  leaf "desc" (VUni "Professional") "Professional" ] ] ];
      node "bit_rates"
        [ node "content"
            [ node "bit_rate[0]" [ leaf "avg_bitrate" (VInt 700000) "700000" ];
              node "bit_rate[1]" [ leaf "avg_bitrate" (VInt 64000) "64000" ] ] ];
      node "stream_prop[0]"
        [ node "content"
            [ node "video_header"
                [ leaf "width" (VInt 320) "320"; leaf "height" (VInt 240) "240" ] ] ];
      node "stream_prop[1]"
        [ node "content"
            [ node "audio_header"
                [ leaf "twocc" (VInt 353) "Windows Media Audio";
                  leaf "sample_rate" (VInt 44100) "44100";
                  leaf "bits_per_sample" (VInt 16) "16" ] ] ];
      node "metadata"
        [ node "content"
            [ leaf "title" (VUni "Holiday") "Holiday";
              leaf "copyright" (VUni "(c) 2005") "(c) 2005" ] ] ].

(** ** Notions used in the statements *)

(** [keeps obs c]: whatever [c] does, returning or raising, it leaves the
    observation [obs] of the record as it was. *)
Definition keeps {S A X} (obs : S -> X) (c : M S A) : Prop :=
  forall s, obs (fst (c s)) = obs s.

(** The stream group a track entry goes to, with the group's header and
    the [try] block that fills its record; [None] for an entry that is not
    classified. *)
Definition track_body ext (track : Field) : option (string * string * M Metadata unit) :=
  match field_at track "TrackType/enum" with
  | None => None
  | Some kind =>
      if String.eqb (f_display kind) "video" then
        Some ("video[]", "Video stream", MkvMetadata.video_body track)
      else if String.eqb (f_display kind) "audio" then
        Some ("audio[]", "Audio stream", MkvMetadata.audio_body ext track)
      else if String.eqb (f_display kind) "subtitle" then
        Some ("subtitle[]", "Subtitle", MkvMetadata.subtitle_body track)
      else None
  end.

(** What a track entry contributes: its group, header and record, the
    record being the fresh one as the [try] block left it. *)
Definition track_record ext (track : Field) : option (string * option string * Metadata) :=
  match track_body ext track with
  | Some (key, header, body) => Some (key, Some header, fst (body ∅))
  | None => None
  end.

(** The [try] block of the entry finishes, or stops at a missing field. *)
Definition track_ok ext (track : Field) : Prop :=
  match track_body ext track with
  | Some (_, _, body) => snd (body ∅) = Ok tt \/ snd (body ∅) = Raise MissingField
  | None => True
  end.

(** A group without its index *)
Definition group_content (g : Group) : string * option string * Metadata :=
  (g_key g, g_header g, g_meta g).

(** The record after a step that adds at most one group under [key] *)
Definition adds_at_most_one (key : string) (r r' : MultipleMetadata) : Prop :=
  groups r' = groups r \/
  exists n meta, groups r' = groups r ++ [MkGroup key n None meta].

(** The value of a descriptor once decoded (line 236-237) *)
Definition decoded ext (v : Value) : Value :=
  match v with
  | VStr s => VUni (makePrintable ext s)
  | _ => v
  end.

(** A descriptor the loop passes over: its type is the byte-array type; or
    its name is in the skip set; or its name is a string and its value,
    once decoded, is empty (false as a truth value). *)
Definition descriptor_skipped ext (desc : Field) : Prop :=
  exists ty, field_at desc "type" = Some ty /\
    (value_eqb (f_value ty) (TYPE_BYTE_ARRAY ext) = true \/
     exists name, field_at desc "name" = Some name /\
       (value_in (f_value name) AsfMetadata.SKIP_EXT_DESC = true \/
        exists value, field_at desc "value" = Some value /\
          is_Some (text_of (f_value name)) /\
          Py.truthy (decoded ext (f_value value)) = false)).

(** The audio streams and the video streams among stream properties, as
    the loop classifies them *)
Definition count_audio (props : list Field) : nat :=
  length (List.filter (fun p => contains p "content/audio_header") props).
Definition count_video (props : list Field) : nat :=
  length (List.filter (fun p => negb (contains p "content/audio_header")
                                && contains p "content/video_header") props).

(** Every value kept in the dictionary is true as a truth value. *)
Definition all_truthy (data : AsfMetadata.Data) : Prop :=
  forall key kind v, data !! key = Some (kind, v) -> Py.truthy v = true.

(** ** Reasoning about computations *)

Section Frame.
Context {S X : Type} (obs : S -> X).

Lemma keeps_ret A (a : A) : keeps obs (ret a).
Proof. intros s. reflexivity. Qed.

Lemma keeps_raise A e : keeps obs (@raise S A e).
Proof. intros s. reflexivity. Qed.

Lemma keeps_lift A (r : result A) : keeps obs (lift r).
Proof. intros s. reflexivity. Qed.

Lemma keeps_bind A B (c : M S A) (k : A -> M S B) :
  keeps obs c -> (forall a, keeps obs (k a)) -> keeps obs (bind c k).
Proof.
  intros Hc Hk s. unfold bind.
  specialize (Hc s). destruct (c s) as [s' [a|e]]; simpl in *.
  - rewrite Hk. exact Hc.
  - exact Hc.
Qed.

Lemma keeps_when b (c : M S unit) : keeps obs c -> keeps obs (when b c).
Proof. intros Hc. destruct b; simpl; [exact Hc | apply keeps_ret]. Qed.

Lemma keeps_if A (b : bool) (c1 c2 : M S A) :
  keeps obs c1 -> keeps obs c2 -> keeps obs (if b then c1 else c2).
Proof. destruct b; auto. Qed.

Lemma keeps_field f p : keeps obs (field f p).
Proof. unfold field. destruct (field_at f p); [apply keeps_ret | apply keeps_raise]. Qed.

Lemma keeps_value_at f p : keeps obs (value_at f p).
Proof. apply keeps_bind; [apply keeps_field | intros; apply keeps_ret]. Qed.

Lemma keeps_display_at f p : keeps obs (display_at f p).
Proof. apply keeps_bind; [apply keeps_field | intros; apply keeps_ret]. Qed.

Lemma keeps_array f p : keeps obs (array f p).
Proof. unfold array. case_match; [apply keeps_ret | apply keeps_raise]. Qed.

Lemma keeps_mfor Y (xs : list Y) (body : Y -> M S unit) :
  (forall y, keeps obs (body y)) -> keeps obs (mfor xs body).
Proof.
  intros Hb. induction xs as [|x xs IH]; simpl.
  - apply keeps_ret.
  - apply keeps_bind; auto.
Qed.

Lemma keeps_try_on_new body : keeps obs (@try_on_new S body).
Proof.
  intros s. unfold try_on_new. destruct (body ∅) as [m [u|e]]; [reflexivity|].
  destruct e; reflexivity.
Qed.

Lemma keeps_on_new body : keeps obs (@on_new S body).
Proof. intros s. unfold on_new. destruct (body ∅) as [m [u|e]]; reflexivity. Qed.

Lemma keeps_try_missing (body : M S unit) : keeps obs body -> keeps obs (try_missing body).
Proof.
  intros Hb s. unfold try_missing. specialize (Hb s).
  destruct (body s) as [s' [u|e]]; [exact Hb|]. destruct e; exact Hb.
Qed.

End Frame.

(** The candidates of an attribute under [setAttribute] *)
Lemma values_setAttribute_ne key key' v (m : Metadata) :
  key <> key' -> values (setAttribute key v m) key' = values m key'.
Proof.
  intros Hne. unfold setAttribute.
  destruct (is_empty v); [reflexivity|].
  destruct (existsb _ _); [reflexivity|].
  unfold values. rewrite lookup_insert_ne by exact Hne. reflexivity.
Qed.

Lemma values_setAttribute_new key v (m : Metadata) :
  is_empty v = false -> existsb (value_eqb v) (values m key) = false ->
  values (setAttribute key v m) key = values m key ++ [v].
Proof.
  intros He Hd. unfold setAttribute. rewrite He, Hd.
  unfold values at 1. rewrite lookup_insert_eq. reflexivity.
Qed.

Lemma get_setAttribute_new key v (m : Metadata) :
  is_empty v = false -> existsb (value_eqb v) (values m key) = false ->
  get (setAttribute key v m) key = Some v.
Proof.
  intros He Hd. unfold get. rewrite values_setAttribute_new by assumption.
  apply last_snoc.
Qed.

Lemma keeps_setattr key key' v :
  key <> key' -> keeps (fun m : Metadata => values m key') (setattr key v).
Proof. intros Hne m. simpl. apply values_setAttribute_ne, Hne. Qed.

Lemma keeps_self_setattr key key' v :
  key <> key' -> keeps (fun r => values (attrs r) key') (self_setattr key v).
Proof. intros Hne r. simpl. apply values_setAttribute_ne, Hne. Qed.

Lemma keeps_groups_self_setattr key v : keeps groups (self_setattr key v).
Proof. intros r. reflexivity. Qed.

Lemma keeps_attrs_addGroup {X} (obs : Metadata -> X) key meta header :
  keeps (fun r => obs (attrs r)) (addGroup key meta header).
Proof. intros r. reflexivity. Qed.

Lemma keeps_self_has X (obs : MultipleMetadata -> X) key : keeps obs (self_has key).
Proof. intros r. reflexivity. Qed.

Lemma keeps_self_get X (obs : MultipleMetadata -> X) key : keeps obs (self_get key).
Proof. intros r. unfold self_get. destruct (get _ _); reflexivity. Qed.

Lemma keeps_apply {S A X} (obs : S -> X) (c : M S A) (s : S) (x : X) :
  keeps obs c -> obs s = x -> obs (fst (c s)) = x.
Proof. intros Hc <-. apply Hc. Qed.

(** Steps that return: they behave as [ret]. *)
Lemma field_some {S} f p c : field_at f p = Some c -> @field S f p = ret c.
Proof. intros H. unfold field. rewrite H. reflexivity. Qed.

Lemma value_at_some {S} f p c : field_at f p = Some c -> @value_at S f p = ret (f_value c).
Proof. intros H. unfold value_at. rewrite (field_some _ _ _ H). reflexivity. Qed.

Lemma display_at_some {S} f p c :
  field_at f p = Some c -> @display_at S f p = ret (f_display c).
Proof. intros H. unfold display_at. rewrite (field_some _ _ _ H). reflexivity. Qed.

Lemma contains_some f p c : field_at f p = Some c -> contains f p = true.
Proof. intros H. unfold contains. rewrite H. reflexivity. Qed.

Lemma contains_true f p : contains f p = true -> exists c, field_at f p = Some c.
Proof. unfold contains. destruct (field_at f p) as [c|]; [eauto | discriminate]. Qed.

Lemma bind_ret {S A B} (a : A) (k : A -> M S B) : bind (ret a) k = k a.
Proof. reflexivity. Qed.

Lemma bind_lift_ok {S A B} (a : A) (k : A -> M S B) : bind (lift (Ok a)) k = k a.
Proof. reflexivity. Qed.

Lemma bind_lift_raise {S A B} e (k : A -> M S B) : bind (lift (Raise e)) k = raise e.
Proof. reflexivity. Qed.

(** A sequence that returns: its first step returned, and the rest
    returned from where the first step left the record. *)
Lemma bind_ok_inv {S A B} (c : M S A) (k : A -> M S B) s s' b :
  bind c k s = (s', Ok b) ->
  exists s1 a, c s = (s1, Ok a) /\ k a s1 = (s', Ok b).
Proof.
  unfold bind. destruct (c s) as [s1 [a|e]]; intros H.
  - eauto.
  - discriminate H.
Qed.

Lemma bind_setattr {B} key v (k : unit -> M Metadata B) m :
  bind (setattr key v) k m = k tt (setAttribute key v m).
Proof. reflexivity. Qed.

Lemma bind_self_setattr {B} key v (k : unit -> M MultipleMetadata B) r :
  bind (self_setattr key v) k r
  = k tt (MkMultiple (setAttribute key v (attrs r)) (groups r)).
Proof. reflexivity. Qed.

Create HintDb frame.
#[local] Hint Resolve keeps_ret keeps_raise keeps_lift keeps_when keeps_if
  keeps_field keeps_value_at keeps_display_at keeps_array keeps_mfor
  keeps_try_on_new keeps_on_new keeps_try_missing keeps_groups_self_setattr
  keeps_attrs_addGroup keeps_self_has keeps_self_get : frame.

(** Splits a sequence of steps and closes each with the frame lemmas; a
    write to another attribute is closed by comparing the two names. *)
Ltac frame :=
  repeat first
    [ apply keeps_bind; [| intros ? ]
    | apply keeps_when
    | apply keeps_if
    | apply keeps_mfor; intros ?
    | apply keeps_try_missing
    | apply keeps_setattr; discriminate
    | apply keeps_self_setattr; discriminate
    | lazymatch goal with
      | |- keeps (fun r => values (attrs r) ?k) (addGroup _ _ _) =>
          apply (keeps_attrs_addGroup (fun m : Metadata => values m k))
      end
    | solve [ auto with frame ] ].

(** ** The root section of each format (C1) *)

Lemma mov_extract_no_movie ext (atoms : list Field) (m : Metadata) :
  Forall (fun atom => contains atom "movie" = false) atoms ->
  mfor atoms (fun atom =>
    when (contains atom "movie") (
      movie <~ field atom "movie" ;;
      MovMetadata.processMovie ext movie)) m = (m, Ok tt).
Proof.
  induction 1 as [|atom atoms Hatom _ IH]; simpl.
  - reflexivity.
  - unfold bind. rewrite Hatom. simpl. exact IH.
Qed.

Lemma flv_derive_without_duration flv (r : MultipleMetadata) :
  has (attrs r) "duration" = false ->
  FlvMetadata.derive_bit_rate flv r = (r, Ok tt).
Proof.
  intros Hno. unfold FlvMetadata.derive_bit_rate, bind, self_has.
  rewrite Hno. reflexivity.
Qed.

(** C1, as stated, fails: the ASF extractor run on a tree with no
    [header/content] raises nothing; it returns normally and leaves the
    empty record. *)
Lemma C1_asf_without_header_returns :
  contains empty_tree "header/content" = false /\
  AsfMetadata.extract sample_ext empty_tree empty_record = (empty_record, Ok tt) /\
  ~ (exists e, snd (AsfMetadata.extract sample_ext empty_tree empty_record) = Raise e).
Proof.
  split; [reflexivity|]. split; [reflexivity|].
  intros [e He]. discriminate He.
Qed.

(** C1, amended: only the Matroska extractor has a mandatory root section.
    Without [Segment[0]] it raises HachoirError and leaves the record as it
    was. The ASF extractor without [header/content] and the MOV extractor
    without any [movie] atom return normally and leave the record as it was;
    the FLV extractor on a tree without [audio[0]], [video[0]] and
    [metadata/entry[1]] returns normally a record with no attribute but
    [format_version] and no group. *)
Theorem C1_root_section ext (tree : Field) :
  (contains tree "Segment[0]" = false ->
   forall r, MkvMetadata.extract ext tree r
             = (r, Raise (HachoirError (gettext ext "Invalid Matroska video")))) /\
  (contains tree "header/content" = false ->
   forall r, AsfMetadata.extract ext tree r = (r, Ok tt)) /\
  (Forall (fun atom => contains atom "movie" = false) (f_children tree) ->
   forall m, MovMetadata.extract ext tree m = (m, Ok tt)) /\
  (contains tree "audio[0]" = false ->
   contains tree "video[0]" = false ->
   contains tree "metadata/entry[1]" = false ->
   FlvMetadata.extract ext tree empty_record
   = (MkMultiple (setAttribute "format_version" (VUni (f_description tree)) ∅) [], Ok tt)).
Proof.
  repeat split.
  - intros H r. unfold MkvMetadata.extract. rewrite H. reflexivity.
  - intros H r. unfold AsfMetadata.extract. rewrite H. reflexivity.
  - intros H m. apply mov_extract_no_movie, H.
  - intros Ha Hv Hm.
    unfold FlvMetadata.extract, FlvMetadata.extract_streams, bind.
    rewrite Ha, Hv, Hm. simpl.
    apply flv_derive_without_duration.
    unfold has. simpl. rewrite values_setAttribute_ne by discriminate.
    reflexivity.
Qed.

Lemma C1_root_section_witness :
  MkvMetadata.extract sample_ext empty_tree empty_record
  = (empty_record, Raise (HachoirError "Invalid Matroska video")) /\
  AsfMetadata.extract sample_ext empty_tree empty_record = (empty_record, Ok tt) /\
  MovMetadata.extract sample_ext empty_tree ∅ = (∅, Ok tt) /\
  FlvMetadata.extract sample_ext empty_tree empty_record = (empty_record, Ok tt).
Proof.
  destruct (C1_root_section sample_ext empty_tree) as (Hmkv & Hasf & Hmov & Hflv).
  split; [apply Hmkv; reflexivity|].
  split; [apply Hasf; reflexivity|].
  split; [apply Hmov; constructor|].
  apply Hflv; reflexivity.
Defined.

(** ** The MOV movie header (C8) *)

(** C8: for a movie header whose [duration] is the integer [ticks] and
    whose [time_scale] is the non-zero integer [scale],
    [processMovieHeader] writes [ticks * 1000 / scale] (the integer
    quotient, a number of milliseconds) to [duration], and nothing else of
    the method touches that attribute, whether the rest of the header is
    read to the end or not: the value is the record's duration unless it was
    already one of its candidates. *)
Theorem C8_mov_duration ext hdr (m : Metadata) fd fs ticks scale :
  field_at hdr "duration" = Some fd -> f_value fd = VInt ticks ->
  field_at hdr "time_scale" = Some fs -> f_value fs = VInt scale ->
  scale <> 0 ->
  let m' := fst (MovMetadata.processMovieHeader ext hdr m) in
  values m' "duration"
  = values (setAttribute "duration" (VInt (ticks * 1000 / scale)) m) "duration" /\
  (existsb (value_eqb (VInt (ticks * 1000 / scale))) (values m "duration") = false ->
   get m' "duration" = Some (VInt (ticks * 1000 / scale))).
Proof.
  intros Hd Hdv Hs Hsv Hnz m'.
  assert (Hvals : values m' "duration"
    = values (setAttribute "duration" (VInt (ticks * 1000 / scale)) m) "duration").
  { subst m'. unfold MovMetadata.processMovieHeader.
    rewrite (value_at_some _ _ _ Hd), bind_ret, Hdv. cbn [Py.mul].
    rewrite bind_lift_ok, (value_at_some _ _ _ Hs), bind_ret, Hsv. cbn [Py.div].
    apply Z.eqb_neq in Hnz. rewrite Hnz, bind_lift_ok, bind_setattr.
    apply (keeps_apply (fun m : Metadata => values m "duration")); [frame | reflexivity]. }
  split; [exact Hvals|].
  intros Hfresh. unfold get. rewrite Hvals.
  apply (get_setAttribute_new "duration"); [reflexivity | exact Hfresh].
Qed.

Lemma C8_mov_duration_witness :
  get (fst (MovMetadata.processMovieHeader sample_ext sample_movie_hdr ∅)) "duration"
  = Some (VInt 150000).
Proof.
  refine (proj2 (C8_mov_duration sample_ext sample_movie_hdr ∅
                   (leaf "duration" (VInt 90000) "90000")
                   (leaf "time_scale" (VInt 600) "600")
                   90000 600 _ _ _ _ _) _);
    try reflexivity.
  discriminate.
Defined.

(** ** The Matroska Info block (C3, C4) *)

(** C3: [processInfo] on an Info block.
    - When [Duration/float] holds the float [d] with [0 < d] and
      [TimecodeScale/unsigned] holds the integer [s], and [d * s * 1e-9]
      seconds is a duration [delta], the method writes [delta] to
      [duration]; nothing else of the method touches that attribute, and
      [delta] is the record's duration unless it was already one of its
      candidates.
    - When one of the two fields is absent, or [0 < d] does not hold, the
      candidates of [duration] are left as they were. *)
Theorem C3_mkv_duration ext info (r : MultipleMetadata) :
  let r' := fst (MkvMetadata.processInfo ext info r) in
  (forall fd ft d s sf delta,
      field_at info "Duration/float" = Some fd -> f_value fd = VFloat d ->
      field_at info "TimecodeScale/unsigned" = Some ft -> f_value ft = VInt s ->
      PrimFloat.ltb 0 d = true ->
      Py.float_of_int s = Ok sf ->
      Py.timedelta_seconds (VFloat (d * sf * 1e-9)%float) = Ok delta ->
      values (attrs r') "duration"
      = values (setAttribute "duration" delta (attrs r)) "duration" /\
      (is_empty delta = false ->
       existsb (value_eqb delta) (values (attrs r) "duration") = false ->
       get (attrs r') "duration" = Some delta)) /\
  (contains info "Duration/float" = false \/
   contains info "TimecodeScale/unsigned" = false \/
   (exists fd d, field_at info "Duration/float" = Some fd /\ f_value fd = VFloat d /\
                 PrimFloat.ltb 0 d = false) ->
   values (attrs r') "duration" = values (attrs r) "duration").
Proof.
  intros r'. subst r'. split.
  - intros fd ft d s sf delta Hd Hdv Ht Htv Hpos Hsf Hdelta.
    assert (Hvals : values (attrs (fst (MkvMetadata.processInfo ext info r))) "duration"
                    = values (setAttribute "duration" delta (attrs r)) "duration").
    { unfold MkvMetadata.processInfo.
      rewrite (contains_some _ _ _ Hd), (contains_some _ _ _ Ht). cbn [andb].
      rewrite !(value_at_some _ _ _ Hd), !bind_ret, Hdv. cbn [Py.zero_lt].
      rewrite Hpos, bind_lift_ok. cbn [when].
      rewrite (value_at_some _ _ _ Ht), !bind_ret, Htv. cbn [Py.mul].
      rewrite Hsf. cbv iota. rewrite bind_lift_ok. cbn [Py.mul].
      rewrite bind_lift_ok, Hdelta, bind_lift_ok, bind_self_setattr.
      apply (keeps_apply (fun r => values (attrs r) "duration")); [frame | reflexivity]. }
    split; [exact Hvals|].
    intros Hne Hfresh. unfold get. rewrite Hvals.
    apply (get_setAttribute_new "duration"); assumption.
  - intros Hsup.
    assert (Hpositive :
      (if contains info "Duration/float" && contains info "TimecodeScale/unsigned"
       then d <~ @value_at MultipleMetadata info "Duration/float" ;; lift (Py.zero_lt d)
       else ret false) = ret false).
    { destruct Hsup as [Hd | [Ht | (fd & d & Hd & Hdv & Hle)]].
      - rewrite Hd. reflexivity.
      - rewrite Ht, andb_false_r. reflexivity.
      - rewrite (contains_some _ _ _ Hd), (value_at_some _ _ _ Hd), bind_ret, Hdv.
        cbn [Py.zero_lt andb]. rewrite Hle.
        destruct (contains info "TimecodeScale/unsigned"); reflexivity. }
    unfold MkvMetadata.processInfo. rewrite Hpositive, bind_ret. cbn [when].
    rewrite bind_ret.
    apply (keeps_apply (fun r => values (attrs r) "duration")); [frame | reflexivity].
Qed.

(** Raw duration 5000 with a timecode scale of 1,000,000 ns gives a
    duration of exactly 5 seconds (5,000,000 microseconds). *)
Lemma C3_mkv_duration_witness :
  get (attrs (fst (MkvMetadata.processInfo sample_ext sample_info empty_record))) "duration"
  = Some (VTimedelta 5000000).
Proof.
  refine (proj2 (proj1 (C3_mkv_duration sample_ext sample_info empty_record)
                   (leaf "float" (VFloat 5000) "5000.0")
                   (leaf "unsigned" (VInt 1000000) "1000000")
                   5000%float 1000000 1000000%float (VTimedelta 5000000)
                   _ _ _ _ _ _ _) _ _);
    reflexivity.
Defined.

Lemma keeps_run {S A X} (obs : S -> X) (c : M S A) s s' res :
  keeps obs c -> c s = (s', res) -> obs s' = obs s.
Proof. intros Hc Hrun. specialize (Hc s). rewrite Hrun in Hc. exact Hc. Qed.

Lemma value_eqb_uni s w : value_eqb (VUni s) w = true -> w = VUni s.
Proof.
  destruct w; simpl; try discriminate.
  intros H. apply String.eqb_eq in H. congruence.
Qed.

Lemma values_setAttribute_cases key v (m : Metadata) :
  values (setAttribute key v m) key = values m key \/
  values (setAttribute key v m) key = values m key ++ [v].
Proof.
  unfold setAttribute. destruct (is_empty v); [left; reflexivity|].
  destruct (existsb _ _); [left; reflexivity|].
  right. unfold values at 1. rewrite lookup_insert_eq. reflexivity.
Qed.

(** Two writes in a row to one attribute, the second a non-empty text that
    was not a candidate before: the second is the value read back. *)
Lemma get_after_two_writes key w s (m : Metadata) :
  s <> "" ->
  existsb (value_eqb (VUni s)) (values m key) = false ->
  get (setAttribute key (VUni s) (setAttribute key w m)) key = Some (VUni s).
Proof.
  intros Hne Hfresh.
  assert (Hnonempty : is_empty (VUni s) = false).
  { simpl. apply String.eqb_neq. exact Hne. }
  destruct (existsb (value_eqb (VUni s)) (values (setAttribute key w m) key)) eqn:Hdup.
  - destruct (values_setAttribute_cases key w m) as [Hsame | Happ].
    + rewrite Hsame in Hdup. congruence.
    + rewrite Happ, existsb_app, Hfresh in Hdup. simpl in Hdup.
      rewrite orb_false_r in Hdup. apply value_eqb_uni in Hdup. subst w.
      unfold setAttribute at 1. rewrite Hnonempty.
      rewrite Happ, existsb_app, Hfresh. simpl. rewrite String.eqb_refl. simpl.
      unfold get. rewrite Happ. apply last_snoc.
  - apply get_setAttribute_new; assumption.
Qed.

(** C4, as stated, fails: an Info block with a writing application and an
    empty muxing application returns the writing application as producer. *)
Lemma C4_empty_muxing_keeps_writing :
  contains info_empty_muxing "WritingApp/unicode" = true /\
  contains info_empty_muxing "MuxingApp/unicode" = true /\
  option_map f_value (field_at info_empty_muxing "MuxingApp/unicode") = Some (VUni "") /\
  snd (MkvMetadata.processInfo sample_ext info_empty_muxing empty_record) = Ok tt /\
  get (attrs (fst (MkvMetadata.processInfo sample_ext info_empty_muxing empty_record)))
      "producer" = Some (VUni "mkvmerge v1.7.0").
Proof. repeat split; vm_compute; reflexivity. Qed.

(** The other way the later source loses: a value that is already an
    earlier candidate is ignored, and the writing application stays last. *)
Example producer_duplicate_ignored :
  let r := MkMultiple (setAttribute "producer" (VUni "libebml v0.7.7") ∅) [] in
  get (attrs (fst (MkvMetadata.processInfo sample_ext sample_info r))) "producer"
  = Some (VUni "mkvmerge v1.7.0").
Proof. vm_compute. reflexivity. Qed.

(** C4, amended: for an Info block that has both [WritingApp/unicode] and
    [MuxingApp/unicode], the muxing application being a non-empty text that
    is not yet a candidate of the record's producer, a call of
    [processInfo] that returns leaves the muxing application as the
    producer the record returns. *)
Theorem C4_producer_muxing ext info (r r' : MultipleMetadata) fw fm mux :
  field_at info "WritingApp/unicode" = Some fw ->
  field_at info "MuxingApp/unicode" = Some fm ->
  f_value fm = VUni mux ->
  mux <> "" ->
  existsb (value_eqb (VUni mux)) (values (attrs r) "producer") = false ->
  MkvMetadata.processInfo ext info r = (r', Ok tt) ->
  get (attrs r') "producer" = Some (VUni mux).
Proof.
  intros Hw Hm Hmv Hne Hfresh Hrun.
  unfold MkvMetadata.processInfo in Hrun.
  apply bind_ok_inv in Hrun as (s1 & positive & Hpos & Hrun).
  apply bind_ok_inv in Hrun as (s2 & [] & Hdur & Hrun).
  apply bind_ok_inv in Hrun as (s3 & [] & Hdate & Hrun).
  apply (keeps_run (fun r => values (attrs r) "producer")) in Hpos; [|frame].
  apply (keeps_run (fun r => values (attrs r) "producer")) in Hdur; [|frame].
  apply (keeps_run (fun r => values (attrs r) "producer")) in Hdate; [|frame].
  simpl in Hpos, Hdur, Hdate.
  rewrite (contains_some _ _ _ Hw), (contains_some _ _ _ Hm) in Hrun. cbn [when] in Hrun.
  rewrite (value_at_some _ _ _ Hw), (value_at_some _ _ _ Hm), !bind_ret in Hrun.
  rewrite !bind_self_setattr, Hmv in Hrun. cbn [attrs groups] in Hrun.
  apply (keeps_run (fun r => values (attrs r) "producer")) in Hrun; [|frame].
  simpl in Hrun. unfold get. rewrite Hrun.
  apply (get_after_two_writes "producer"); [exact Hne|].
  rewrite Hdate, Hdur, Hpos. exact Hfresh.
Qed.

Lemma C4_producer_muxing_witness :
  get (attrs (fst (MkvMetadata.processInfo sample_ext sample_info empty_record))) "producer"
  = Some (VUni "libebml v0.7.7").
Proof.
  apply (C4_producer_muxing sample_ext sample_info empty_record _
           (leaf "unicode" (VUni "mkvmerge v1.7.0") "mkvmerge v1.7.0")
           (leaf "unicode" (VUni "libebml v0.7.7") "libebml v0.7.7")
           "libebml v0.7.7");
    first [ reflexivity | discriminate ].
Defined.

(** ** The FLV bit rate (C2) *)

Lemma has_of_get (m : Metadata) key v : get m key = Some v -> has m key = true.
Proof.
  unfold get, has. destruct (values m key); [discriminate | reflexivity].
Qed.

Lemma flv_streams_keep_bit_rate ext flv :
  keeps (fun r => values (attrs r) "bit_rate") (FlvMetadata.extract_streams ext flv).
Proof.
  unfold FlvMetadata.extract_streams, FlvMetadata.extractAMF. frame.
Qed.

(** C2: let [r1] be the record once [extract] has done everything but its
    last statement (the two stream groups, [format_version], the
    side-channel entries).
    - If [r1] has a duration of [secs] seconds, [secs] not zero, [extract]
      returns [r1] with [size / secs] written to [bit_rate], and that is
      the bit rate the record returns.
    - If [r1] has no duration, [extract] returns [r1] itself, which has no
      [bit_rate].
    - Without the side channel [metadata/entry[1]], [r1] has no duration. *)
Theorem C2_flv_bit_rate ext flv (r1 : MultipleMetadata) :
  FlvMetadata.extract_streams ext flv empty_record = (r1, Ok tt) ->
  (forall d secs sz,
      get (attrs r1) "duration" = Some d ->
      timedelta2seconds d = Ok secs ->
      PrimFloat.eqb secs 0 = false ->
      Py.float_of_int (f_size flv) = Ok sz ->
      FlvMetadata.extract ext flv empty_record
      = (MkMultiple (setAttribute "bit_rate" (VFloat (sz / secs)) (attrs r1)) (groups r1),
         Ok tt) /\
      get (setAttribute "bit_rate" (VFloat (sz / secs)) (attrs r1)) "bit_rate"
      = Some (VFloat (sz / secs))) /\
  (has (attrs r1) "duration" = false ->
   FlvMetadata.extract ext flv empty_record = (r1, Ok tt) /\
   has (attrs r1) "bit_rate" = false) /\
  (contains flv "metadata/entry[1]" = false -> has (attrs r1) "duration" = false).
Proof.
  intros Hpre.
  assert (Hnone : values (attrs r1) "bit_rate" = []).
  { apply (keeps_run (fun r => values (attrs r) "bit_rate")) in Hpre as ->;
      [reflexivity | apply flv_streams_keep_bit_rate]. }
  split.
  - intros d secs sz Hd Hsecs Hnz Hsz. split.
    + unfold FlvMetadata.extract, bind at 1. rewrite Hpre.
      unfold FlvMetadata.derive_bit_rate, bind, self_has, self_get, when.
      rewrite (has_of_get _ _ _ Hd), Hd. simpl. rewrite Hsecs. simpl.
      rewrite Hsz, Hnz. reflexivity.
    + apply get_setAttribute_new; [reflexivity|]. rewrite Hnone. reflexivity.
  - split.
    + intros Hno. split.
      * unfold FlvMetadata.extract, bind at 1. rewrite Hpre.
        apply flv_derive_without_duration, Hno.
      * unfold has. rewrite Hnone. reflexivity.
    + intros Hside. unfold has.
      apply (keeps_run (fun r => values (attrs r) "duration")) in Hpre as ->;
        [reflexivity|].
      unfold FlvMetadata.extract_streams. rewrite Hside.
      change (when false ?c) with (@ret MultipleMetadata unit tt). frame.
Qed.

(** A side-channel duration of 12.5 seconds and a stream size of 1,000,000
    give a bit rate of 80000. *)
Lemma C2_flv_bit_rate_witness :
  get (attrs (fst (FlvMetadata.extract sample_ext sample_flv empty_record))) "bit_rate"
  = Some (VFloat 80000).
Proof.
  destruct (proj1 (C2_flv_bit_rate sample_ext sample_flv
                     (fst (FlvMetadata.extract_streams sample_ext sample_flv empty_record))
                     eq_refl)
              (VTimedelta 12500000) 12.5%float 1000000%float
              eq_refl eq_refl eq_refl eq_refl) as [Hrun Hget].
  rewrite Hrun. exact Hget.
Defined.

(** ** Matroska tracks with a missing field (C5) *)

Lemma try_group_spec key header (body : M Metadata unit) (r : MultipleMetadata) :
  snd (body ∅) = Ok tt \/ snd (body ∅) = Raise MissingField ->
  (meta <~ try_on_new body ;; addGroup key meta header) r
  = (add_group key (fst (body ∅)) header r, Ok tt).
Proof.
  intros Hbody. unfold bind, try_on_new, addGroup.
  destruct (body ∅) as [m res]. simpl in *.
  destruct Hbody as [-> | ->]; reflexivity.
Qed.

Lemma processTrack_spec ext track (r : MultipleMetadata) :
  track_ok ext track ->
  MkvMetadata.processTrack ext track r
  = match track_record ext track with
    | Some (key, header, meta) => (add_group key meta header r, Ok tt)
    | None => (r, Ok tt)
    end.
Proof.
  unfold track_ok, track_record, track_body, MkvMetadata.processTrack.
  unfold contains.
  destruct (field_at track "TrackType/enum") as [kind|] eqn:Hkind; [|reflexivity].
  cbn [negb]. rewrite (display_at_some _ _ _ Hkind), bind_ret.
  destruct (String.eqb (f_display kind) "video").
  { intros Hok. apply try_group_spec, Hok. }
  destruct (String.eqb (f_display kind) "audio").
  { intros Hok. apply try_group_spec, Hok. }
  destruct (String.eqb (f_display kind) "subtitle").
  { intros Hok. apply try_group_spec, Hok. }
  reflexivity.
Qed.

(** Each entry contributes its own record, and nothing else changes. *)
Lemma tracks_loop_spec ext (entries : list Field) (r : MultipleMetadata) :
  Forall (track_ok ext) entries ->
  let run := mfor entries (MkvMetadata.processTrack ext) r in
  snd run = Ok tt /\
  attrs (fst run) = attrs r /\
  map group_content (groups (fst run))
  = map group_content (groups r) ++ omap (track_record ext) entries.
Proof.
  intros Hok. revert r. induction Hok as [|track entries Htrack _ IH]; intros r; simpl.
  - rewrite app_nil_r. auto.
  - unfold bind. rewrite (processTrack_spec _ _ _ Htrack).
    destruct (track_record ext track) as [[[key header] meta]|].
    + destruct (IH (add_group key meta header r)) as (Hres & Hattrs & Hgroups).
      split; [exact Hres|]. split; [exact Hattrs|].
      rewrite Hgroups. simpl. rewrite map_app, <- app_assoc. reflexivity.
    + apply IH.
Qed.

(** C5: in a [Tracks] block whose entries are [before], then a classified
    [track] whose [try] block stops at a missing field, then [after]
    (every other entry finishing or stopping at a missing field of its
    own), [processTracks] returns normally; the record's attributes are as
    before; the groups added are, in order, those of [before], the group of
    [track] holding the record as filled up to the missing field, and those
    of [after], each sibling's record being what that sibling alone gives. *)
Theorem C5_missing_field_in_track ext tracks before track after key header body
    (r : MultipleMetadata) :
  array_of tracks "TrackEntry" = before ++ track :: after ->
  Forall (track_ok ext) before ->
  Forall (track_ok ext) after ->
  track_body ext track = Some (key, header, body) ->
  snd (body ∅) = Raise MissingField ->
  let run := MkvMetadata.processTracks ext tracks r in
  snd run = Ok tt /\
  attrs (fst run) = attrs r /\
  map group_content (groups (fst run))
  = map group_content (groups r)
    ++ omap (track_record ext) before
    ++ [(key, Some header, fst (body ∅))]
    ++ omap (track_record ext) after.
Proof.
  intros Harray Hbefore Hafter Hbody Hmissing run. subst run.
  assert (Htrack : track_ok ext track).
  { unfold track_ok. rewrite Hbody. right. exact Hmissing. }
  assert (Hall : Forall (track_ok ext) (before ++ track :: after)).
  { apply Forall_app. split; [exact Hbefore | constructor; assumption]. }
  change (MkvMetadata.processTracks ext tracks r)
    with (mfor (array_of tracks "TrackEntry") (MkvMetadata.processTrack ext) r).
  rewrite Harray.
  destruct (tracks_loop_spec ext _ r Hall) as (Hres & Hattrs & Hgroups).
  split; [exact Hres|]. split; [exact Hattrs|].
  rewrite Hgroups, omap_app. simpl.
  unfold track_record at 2. rewrite Hbody. reflexivity.
Qed.

(** A video entry with a name and no codec sits between two audio entries,
    the second without a channel count: three groups, the video one with
    its title only, the last audio one with language and sample rate. *)
Lemma C5_missing_field_in_track_witness :
  let run := MkvMetadata.processTracks sample_ext sample_tracks empty_record in
  snd run = Ok tt /\
  attrs (fst run) = ∅ /\
  map group_content (groups (fst run))
  = [ ("audio[]", Some "Audio stream",
       fst (MkvMetadata.audio_body sample_ext track_audio_full ∅));
      ("video[]", Some "Video stream", setAttribute "title" (VUni "Main feature") ∅);
      ("audio[]", Some "Audio stream",
       setAttribute "sample_rate" (VInt 48000)
         (setAttribute "language" (VUni "French") ∅)) ].
Proof.
  refine (C5_missing_field_in_track sample_ext sample_tracks
            [track_audio_full] track_name_only [track_audio_no_channels]
            "video[]" "Video stream" (MkvMetadata.video_body track_name_only)
            empty_record eq_refl _ _ eq_refl eq_refl).
  - constructor; [left; reflexivity | constructor].
  - constructor; [right; reflexivity | constructor].
Defined.

(** ** The FLV stream headers (C9) *)

Lemma stream_step_groups key (b : bool) (fld : M MultipleMetadata Field)
    (build : Field -> M Metadata unit) (r : MultipleMetadata) :
  keeps groups fld ->
  adds_at_most_one key r
    (fst (when b (f <~ fld ;; meta <~ on_new (build f) ;; addGroup key meta None) r)).
Proof.
  intros Hfld. destruct b; [|left; reflexivity].
  unfold when, bind. specialize (Hfld r).
  destruct (fld r) as [r1 [f|e]]; simpl in Hfld; [|left; exact Hfld].
  unfold on_new. destruct (build f ∅) as [meta [[]|e]]; simpl.
  - right. exists (group_count key (groups r1)), meta. rewrite <- Hfld. reflexivity.
  - left. exact Hfld.
Qed.

Lemma fst_bind_cases {S A B} (c : M S A) (k : A -> M S B) s :
  (exists a, snd (c s) = Ok a /\ fst (bind c k s) = fst (k a (fst (c s)))) \/
  fst (bind c k s) = fst (c s).
Proof.
  unfold bind. destruct (c s) as [s' [a|e]]; simpl.
  - left. eauto.
  - right. reflexivity.
Qed.

Lemma flv_groups ext flv (r : MultipleMetadata) :
  exists r1 r2,
    adds_at_most_one "audio" r r1 /\
    adds_at_most_one "video" r1 r2 /\
    groups (fst (FlvMetadata.extract ext flv r)) = groups r2.
Proof.
  unfold FlvMetadata.extract, FlvMetadata.extract_streams.
  set (audio := when (contains flv "audio[0]") _).
  set (video := when (contains flv "video[0]") _).
  assert (Haudio : forall s, adds_at_most_one "audio" s (fst (audio s))).
  { intros s. apply stream_step_groups. auto with frame. }
  assert (Hvideo : forall s, adds_at_most_one "video" s (fst (video s))).
  { intros s. apply stream_step_groups. auto with frame. }
  clearbody audio video.
  assert (Hrest : forall k : unit -> M MultipleMetadata unit,
             (forall u, keeps groups (k u)) ->
             forall s, exists r1 r2,
               adds_at_most_one "audio" s r1 /\ adds_at_most_one "video" r1 r2 /\
               groups (fst ((audio ;; video ;; k tt) s)) = groups r2).
  { intros k Hk s.
    destruct (fst_bind_cases audio (fun _ => video ;; k tt) s) as [([] & _ & ->) | ->].
    - exists (fst (audio s)).
      destruct (fst_bind_cases video (fun _ => k tt) (fst (audio s)))
        as [([] & _ & ->) | ->].
      + exists (fst (video (fst (audio s)))). rewrite Hk. auto.
      + exists (fst (video (fst (audio s)))). auto.
    - exists (fst (audio s)), (fst (audio s)).
      split; [apply Haudio|]. split; [left; reflexivity | reflexivity]. }
  destruct (fst_bind_cases
              (audio ;; video ;;
               self_setattr "format_version" (VUni (f_description flv)) ;;
               when (contains flv "metadata/entry[1]") (
                 amf <~ field flv "metadata/entry[1]" ;;
                 FlvMetadata.extractAMF ext amf))
              (fun _ => FlvMetadata.derive_bit_rate flv) r) as [([] & _ & ->) | ->].
  - assert (Hderive : keeps groups (FlvMetadata.derive_bit_rate flv)).
    { unfold FlvMetadata.derive_bit_rate. frame. }
    unfold keeps in Hderive. rewrite Hderive.
    apply (Hrest (fun _ => _)). intros _.
    unfold FlvMetadata.extractAMF. frame.
  - apply (Hrest (fun _ => _)). intros _. unfold FlvMetadata.extractAMF. frame.
Qed.

(** C9: whatever the tree holds, [extract] adds to the record's groups at
    most one group ["audio"] and at most one group ["video"], and no other
    (also when it raises); and what it does is determined by [audio[0]],
    [video[0]], [metadata/entry[1]], the description and the size of the
    tree: no other stream header is looked at. *)
Theorem C9_flv_first_headers_only ext (flv : Field) :
  (forall r, exists added,
      groups (fst (FlvMetadata.extract ext flv r)) = groups r ++ added /\
      (group_count "audio" added <= 1)%nat /\
      (group_count "video" added <= 1)%nat /\
      (length added = group_count "audio" added + group_count "video" added)%nat) /\
  (forall flv',
      field_at flv' "audio[0]" = field_at flv "audio[0]" ->
      field_at flv' "video[0]" = field_at flv "video[0]" ->
      field_at flv' "metadata/entry[1]" = field_at flv "metadata/entry[1]" ->
      f_description flv' = f_description flv ->
      f_size flv' = f_size flv ->
      FlvMetadata.extract ext flv' = FlvMetadata.extract ext flv).
Proof.
  split.
  - intros r. destruct (flv_groups ext flv r) as (r1 & r2 & Ha & Hv & ->).
    destruct Ha as [Ha | (n & ma & Ha)], Hv as [Hv | (n' & mv & Hv)];
      rewrite Hv, Ha.
    + exists []. rewrite app_nil_r. repeat split; auto.
    + exists [MkGroup "video" n' None mv]. repeat split; auto.
    + exists [MkGroup "audio" n None ma]. repeat split; auto.
    + exists [MkGroup "audio" n None ma; MkGroup "video" n' None mv].
      rewrite <- app_assoc. repeat split; auto.
  - intros flv' Haudio Hvideo Hside Hdesc Hsize.
    unfold FlvMetadata.extract, FlvMetadata.extract_streams,
      FlvMetadata.derive_bit_rate, contains, field.
    rewrite Haudio, Hvideo, Hside, Hdesc, Hsize. reflexivity.
Qed.

(** A tree with two audio and two video headers gives the record of the
    tree with one of each: one audio group and one video group. *)
Lemma C9_flv_first_headers_only_witness :
  FlvMetadata.extract sample_ext sample_flv = FlvMetadata.extract sample_ext sample_flv_single.
Proof.
  apply (proj2 (C9_flv_first_headers_only sample_ext sample_flv_single) sample_flv);
    reflexivity.
Defined.

(** ** ASF extended descriptors that are skipped (C10) *)

Lemma read_descriptor_skipped {S} ext desc (data : AsfMetadata.Data) :
  descriptor_skipped ext desc ->
  @AsfMetadata.read_descriptor ext S data desc = ret data.
Proof.
  intros (ty & Hty & Hcase). unfold AsfMetadata.read_descriptor.
  rewrite (value_at_some _ _ _ Hty), bind_ret.
  destruct (value_eqb (f_value ty) (TYPE_BYTE_ARRAY ext)); [reflexivity|].
  destruct Hcase as [Hbytes | (name & Hname & Hcase)]; [discriminate|].
  rewrite (value_at_some _ _ _ Hname), bind_ret.
  destruct (value_in (f_value name) AsfMetadata.SKIP_EXT_DESC); [reflexivity|].
  destruct Hcase as [Hskip | (value & Hvalue & [k Hk] & Hempty)]; [discriminate|].
  rewrite (value_at_some _ _ _ Hvalue), bind_ret.
  unfold decoded in Hempty.
  destruct (f_value name); try discriminate Hk; rewrite Hempty; reflexivity.
Qed.

Lemma read_descriptors_app {S} ext (l1 l2 : list Field) (data : AsfMetadata.Data) (s : S) :
  AsfMetadata.read_descriptors ext (l1 ++ l2) data s
  = (data' <~ AsfMetadata.read_descriptors ext l1 data ;;
     AsfMetadata.read_descriptors ext l2 data') s.
Proof.
  revert data s. induction l1 as [|d l1 IH]; intros data s; simpl.
  - reflexivity.
  - unfold bind.
    destruct (AsfMetadata.read_descriptor ext data d s) as [s' [data'|e]]; [|reflexivity].
    rewrite IH. reflexivity.
Qed.

Lemma bind_run_ok {S A B} (c : M S A) (k : A -> M S B) s s' a :
  c s = (s', Ok a) -> bind c k s = k a s'.
Proof. intros H. unfold bind. rewrite H. reflexivity. Qed.

Lemma bind_ext_first {S A B} (c c' : M S A) (k : A -> M S B) s :
  c s = c' s -> bind c k s = bind c' k s.
Proof. intros H. unfold bind. rewrite H. reflexivity. Qed.

Lemma read_descriptors_skip {S} ext before desc after (data : AsfMetadata.Data) (s : S) :
  descriptor_skipped ext desc ->
  AsfMetadata.read_descriptors ext (before ++ desc :: after) data s
  = AsfMetadata.read_descriptors ext (before ++ after) data s.
Proof.
  intros Hskip. rewrite !read_descriptors_app. unfold bind.
  destruct (AsfMetadata.read_descriptors ext before data s) as [s' [data'|e]];
    [|reflexivity].
  simpl. rewrite (read_descriptor_skipped ext desc data' Hskip). reflexivity.
Qed.

(** C10: a descriptor whose type is the byte-array type, or whose name is
    in the skip set, or whose value is empty once decoded, leaves the
    dictionary [data] as it was; the block of the extended descriptors gives
    the same record and the same VBR flag (or raises the same exception)
    with the descriptor in the sequence as without it. *)
Theorem C10_skipped_descriptor ext desc :
  descriptor_skipped ext desc ->
  (forall (data : AsfMetadata.Data) (r : MultipleMetadata),
      AsfMetadata.read_descriptor ext data desc r = (r, Ok data)) /\
  (forall before after r,
      AsfMetadata.process_descriptors ext (before ++ desc :: after) r
      = AsfMetadata.process_descriptors ext (before ++ after) r) /\
  (forall header header' before after r,
      contains header "ext_desc/content" = true ->
      contains header' "ext_desc/content" = true ->
      array header "ext_desc/content/descriptor" r = (r, Ok (before ++ desc :: after)) ->
      array header' "ext_desc/content/descriptor" r = (r, Ok (before ++ after)) ->
      AsfMetadata.ext_desc_block ext header r = AsfMetadata.ext_desc_block ext header' r).
Proof.
  intros Hskip.
  assert (Hblock : forall before after r,
             AsfMetadata.process_descriptors ext (before ++ desc :: after) r
             = AsfMetadata.process_descriptors ext (before ++ after) r).
  { intros before after r. unfold AsfMetadata.process_descriptors.
    apply bind_ext_first, read_descriptors_skip, Hskip. }
  split; [|split].
  - intros data r. rewrite (read_descriptor_skipped ext desc data Hskip). reflexivity.
  - exact Hblock.
  - intros header header' before after r Hc Hc' Harr Harr'.
    unfold AsfMetadata.ext_desc_block. rewrite Hc, Hc'.
    unfold bind. rewrite Harr, Harr'. apply Hblock.
Qed.

(** An embedded picture, of the byte-array type, among the sample
    descriptors changes nothing. *)
Lemma C10_skipped_descriptor_witness :
  let picture := descriptor 1 "WM/Picture" (VStr "JFIF") in
  AsfMetadata.process_descriptors sample_ext
    (firstn 2 sample_descriptors ++ picture :: skipn 2 sample_descriptors) empty_record
  = AsfMetadata.process_descriptors sample_ext
      (firstn 2 sample_descriptors ++ skipn 2 sample_descriptors) empty_record.
Proof.
  intros picture.
  refine (proj1 (proj2 (C10_skipped_descriptor sample_ext picture _)) _ _ _).
  exists (leaf "type" (VInt 1) ""). split; [reflexivity | left; reflexivity].
Defined.

(** ** ASF tool name and version (C6) *)

Lemma keeps_mfor_Forall {S X Y} (obs : S -> X) (xs : list Y) (body : Y -> M S unit) :
  Forall (fun y => keeps obs (body y)) xs -> keeps obs (mfor xs body).
Proof.
  induction 1 as [|y ys Hy _ IH]; simpl.
  - apply keeps_ret.
  - apply keeps_bind; auto.
Qed.

(** The keys that the table sends to [producer] *)
Lemma producer_keys key :
  table_get key AsfMetadata.EXT_DESC_TO_ATTR = Some "producer" ->
  key = "Encoder" \/ key = "ToolName".
Proof.
  unfold AsfMetadata.EXT_DESC_TO_ATTR. simpl.
  destruct (String.eqb key "Encoder") eqn:E1; [apply String.eqb_eq in E1; auto|].
  destruct (String.eqb key "ToolName") eqn:E2; [apply String.eqb_eq in E2; auto|].
  repeat (destruct (String.eqb key _); [discriminate|]). discriminate.
Qed.

(** The attributes the table can write *)
Lemma table_attrs key attr :
  table_get key AsfMetadata.EXT_DESC_TO_ATTR = Some attr ->
  attr = "producer" \/ attr = "album" \/ attr = "track_number" \/ attr = "creation_date".
Proof.
  unfold AsfMetadata.EXT_DESC_TO_ATTR. simpl.
  repeat (destruct (String.eqb key _); [intros [= <-]; auto|]). discriminate.
Qed.

Lemma store_keeps_producer ext (data : AsfMetadata.Data) :
  data !! "Encoder" = None -> data !! "ToolName" = None ->
  keeps (fun r => values (attrs r) "producer") (AsfMetadata.store ext data).
Proof.
  intros Henc Htool. unfold AsfMetadata.store.
  apply keeps_mfor_Forall, Forall_forall.
  intros [key [is_str value]] Hin. apply elem_of_map_to_list in Hin.
  unfold AsfMetadata.store_item.
  destruct (table_get key AsfMetadata.EXT_DESC_TO_ATTR) as [attr|] eqn:Hattr.
  - apply keeps_self_setattr. intros ->.
    destruct (producer_keys _ Hattr) as [-> | ->]; congruence.
  - apply keeps_self_setattr. discriminate.
Qed.

Lemma take_vbr_lookup (data : AsfMetadata.Data) key :
  data !! key = None -> snd (AsfMetadata.take_vbr data) !! key = None.
Proof.
  intros Hnone. unfold AsfMetadata.take_vbr.
  destruct (data !! "IsVBR") as [[kind v]|]; simpl; [|exact Hnone].
  destruct (decide (key = "IsVBR")) as [-> | Hne].
  - apply lookup_delete_eq.
  - rewrite lookup_delete_ne by congruence. exact Hnone.
Qed.

(** The body of the block, given the descriptors: when the dictionary read
    from them holds both [ToolName] and [ToolVersion], it writes
    ["<name> (version <version>)"] to [producer], then stores a dictionary
    that holds neither key, so that the loop that makes attributes and
    comments meets neither; unless an [Encoder] key is there too, nothing else of the
    block writes to [producer]. *)
Lemma tool_merge_block ext descs (r : MultipleMetadata)
    (data : AsfMetadata.Data) kn kv name version :
  AsfMetadata.read_descriptors ext descs ∅ r = (r, Ok data) ->
  data !! "ToolName" = Some (kn, name) ->
  data !! "ToolVersion" = Some (kv, version) ->
  let producer :=
    AsfMetadata.text_value (AsfMetadata.is_uni name || AsfMetadata.is_uni version)
      (AsfMetadata.py_str ext name +:+ " (version " +:+ AsfMetadata.py_str ext version +:+ ")") in
  let merged := MkMultiple (setAttribute "producer" producer (attrs r)) (groups r) in
  let rest := delete "ToolVersion" (delete "ToolName" data) in
  let stored := snd (AsfMetadata.take_vbr rest) in
  AsfMetadata.process_descriptors ext descs r
  = (AsfMetadata.store ext stored ;; ret (fst (AsfMetadata.take_vbr rest))) merged /\
  stored !! "ToolName" = None /\
  stored !! "ToolVersion" = None /\
  Forall (fun item => fst item <> "ToolName" /\ fst item <> "ToolVersion")
         (map_to_list stored) /\
  (data !! "Encoder" = None ->
   values (attrs (fst (AsfMetadata.process_descriptors ext descs r))) "producer"
   = values (setAttribute "producer" producer (attrs r)) "producer").
Proof.
  intros Hread Hname Hversion producer merged rest stored.
  assert (Hrun : AsfMetadata.process_descriptors ext descs r
    = (AsfMetadata.store ext stored ;; ret (fst (AsfMetadata.take_vbr rest))) merged).
  { unfold AsfMetadata.process_descriptors.
    rewrite (bind_run_ok _ _ _ _ _ Hread).
    unfold AsfMetadata.merge_tool. rewrite Hname, Hversion.
    unfold bind at 1 2. cbn [self_setattr ret]. fold producer merged rest.
    subst stored. destruct (AsfMetadata.take_vbr rest) as [is_vbr data2]. reflexivity. }
  assert (Htool : stored !! "ToolName" = None).
  { apply take_vbr_lookup. subst rest.
    rewrite lookup_delete_ne by discriminate. apply lookup_delete_eq. }
  assert (Hvers : stored !! "ToolVersion" = None).
  { apply take_vbr_lookup. apply lookup_delete_eq. }
  split; [exact Hrun|]. split; [exact Htool|]. split; [exact Hvers|]. split.
  { apply Forall_forall. intros [key item] Hin. apply elem_of_map_to_list in Hin.
    simpl. split; intros ->; congruence. }
  intros Henc. rewrite Hrun.
  apply (keeps_apply (fun r => values (attrs r) "producer")); [|reflexivity].
  apply keeps_bind; [|intros; apply keeps_ret].
  apply store_keeps_producer; [|exact Htool].
  apply take_vbr_lookup. subst rest. rewrite !lookup_delete_ne by discriminate.
  exact Henc.
Qed.

(** ** The ASF header as a whole: producer (C6), bit rate and VBR flag (C7) *)

Lemma values_setAttribute_congr key v (m1 m2 : Metadata) :
  values m1 key = values m2 key ->
  values (setAttribute key v m1) key = values (setAttribute key v m2) key.
Proof.
  intros Heq. unfold setAttribute. rewrite Heq.
  destruct (is_empty v); [exact Heq|].
  destruct (existsb _ _); [exact Heq|].
  unfold values at 1 3. rewrite !lookup_insert_eq. reflexivity.
Qed.

Lemma keeps_read_descriptors {S X} (obs : S -> X) ext descs (data : AsfMetadata.Data) :
  keeps obs (AsfMetadata.read_descriptors ext descs data).
Proof.
  revert data. induction descs as [|desc descs IH]; intros data; simpl.
  - apply keeps_ret.
  - apply keeps_bind; [|intros; apply IH].
    unfold AsfMetadata.read_descriptor. frame.
    match goal with |- keeps _ (match ?key with _ => _ end) => destruct key end; frame.
Qed.

Lemma keeps_store_other ext (data : AsfMetadata.Data) key :
  key <> "producer" -> key <> "album" -> key <> "track_number" ->
  key <> "creation_date" -> key <> "comment" ->
  keeps (fun r => values (attrs r) key) (AsfMetadata.store ext data).
Proof.
  intros H1 H2 H3 H4 H5. unfold AsfMetadata.store.
  apply keeps_mfor. intros [k [is_str value]]. unfold AsfMetadata.store_item.
  destruct (table_get k AsfMetadata.EXT_DESC_TO_ATTR) as [attr|] eqn:Hattr.
  - apply keeps_self_setattr.
    destruct (table_attrs _ _ Hattr) as [-> | [-> | [-> | ->]]]; congruence.
  - apply keeps_self_setattr. congruence.
Qed.

Lemma keeps_ext_desc_block ext header key :
  key <> "producer" -> key <> "album" -> key <> "track_number" ->
  key <> "creation_date" -> key <> "comment" ->
  keeps (fun r => values (attrs r) key) (AsfMetadata.ext_desc_block ext header).
Proof.
  intros H1 H2 H3 H4 H5. unfold AsfMetadata.ext_desc_block.
  apply keeps_if; [|apply keeps_ret].
  apply keeps_bind; [apply keeps_array | intros descs].
  unfold AsfMetadata.process_descriptors.
  apply keeps_bind; [apply keeps_read_descriptors | intros data].
  apply keeps_bind.
  - unfold AsfMetadata.merge_tool.
    destruct (data !! "ToolName") as [[? ?]|]; [|apply keeps_ret].
    destruct (data !! "ToolVersion") as [[? ?]|]; [|apply keeps_ret].
    apply keeps_bind; [|intros; apply keeps_ret].
    apply keeps_self_setattr. congruence.
  - intros data1. destruct (AsfMetadata.take_vbr data1) as [is_vbr data2].
    apply keeps_bind; [|intros; apply keeps_ret].
    apply keeps_store_other; assumption.
Qed.

Lemma keeps_codec_list_block {S X} (obs : S -> X) ext header :
  keeps obs (AsfMetadata.codec_list_block ext header).
Proof.
  unfold AsfMetadata.codec_list_block.
  apply keeps_if; [|apply keeps_ret].
  apply keeps_bind; [apply keeps_array | intros codecs].
  generalize (@nil Value). induction codecs as [|codec codecs IH]; intros acc; simpl.
  - apply keeps_ret.
  - apply keeps_if; [|apply IH].
    apply keeps_bind; [|intros; apply IH].
    unfold AsfMetadata.codec_text. frame.
Qed.

Lemma keeps_stream_loop header props key i a v :
  keeps (fun r => values (attrs r) key) (AsfMetadata.stream_loop header props i a v).
Proof.
  revert i a v. induction props as [|p props IH]; intros i a v; simpl.
  - apply keeps_ret.
  - repeat apply keeps_if; try apply IH; frame; apply IH.
Qed.

(** C6: let the header have an extended-descriptor block whose descriptors,
    once filtered, leave a dictionary with both [ToolName] and
    [ToolVersion]. Then the block of [processHeader] writes
    ["<name> (version <version>)"] to [producer] and goes on with a
    dictionary that holds neither key, so the loop that makes the
    remapped attributes and the ["key=value"] comments meets neither;
    [processHeader], and [extract] on a tree with that header, are the rest
    of the header run from the record so written. Unless an [Encoder] key
    is there too, nothing else in the whole extraction writes to
    [producer]. *)
Theorem C6_tool_producer ext asf header descs (r : MultipleMetadata)
    (data : AsfMetadata.Data) kn kv name version :
  field_at asf "header/content" = Some header ->
  contains header "ext_desc/content" = true ->
  array header "ext_desc/content/descriptor" r = (r, Ok descs) ->
  AsfMetadata.read_descriptors ext descs ∅ r = (r, Ok data) ->
  data !! "ToolName" = Some (kn, name) ->
  data !! "ToolVersion" = Some (kv, version) ->
  let producer :=
    AsfMetadata.text_value (AsfMetadata.is_uni name || AsfMetadata.is_uni version)
      (AsfMetadata.py_str ext name +:+ " (version " +:+ AsfMetadata.py_str ext version +:+ ")") in
  let merged := MkMultiple (setAttribute "producer" producer (attrs r)) (groups r) in
  let rest := delete "ToolVersion" (delete "ToolName" data) in
  let stored := snd (AsfMetadata.take_vbr rest) in
  let flag := fst (AsfMetadata.take_vbr rest) in
  AsfMetadata.ext_desc_block ext header r = (AsfMetadata.store ext stored ;; ret flag) merged /\
  AsfMetadata.extract ext asf r = AsfMetadata.processHeader ext header r /\
  AsfMetadata.processHeader ext header r
  = (is_vbr <~ (AsfMetadata.store ext stored ;; ret flag) ;;
     AsfMetadata.file_prop_block ext header is_vbr ;;
     compression <~ AsfMetadata.codec_list_block ext header ;;
     props <~ array header "stream_prop" ;;
     AsfMetadata.stream_loop header props 0 1 1 ;;
     AsfMetadata.metadata_block header) merged /\
  stored !! "ToolName" = None /\
  stored !! "ToolVersion" = None /\
  Forall (fun item => fst item <> "ToolName" /\ fst item <> "ToolVersion")
         (map_to_list stored) /\
  (data !! "Encoder" = None ->
   values (attrs (fst (AsfMetadata.extract ext asf r))) "producer"
   = values (setAttribute "producer" producer (attrs r)) "producer").
Proof.
  intros Hheader Hblock Harray Hread Hname Hversion producer merged rest stored flag.
  destruct (tool_merge_block ext descs r data kn kv name version Hread Hname Hversion)
    as (Hrun & Htool & Hvers & Hitems & _).
  fold producer merged rest stored flag in Hrun, Htool, Hvers, Hitems.
  assert (Hext : AsfMetadata.ext_desc_block ext header r
                 = (AsfMetadata.store ext stored ;; ret flag) merged).
  { unfold AsfMetadata.ext_desc_block. rewrite Hblock.
    rewrite (bind_run_ok _ _ _ _ _ Harray). exact Hrun. }
  assert (Hextract : AsfMetadata.extract ext asf r = AsfMetadata.processHeader ext header r).
  { unfold AsfMetadata.extract. rewrite (contains_some _ _ _ Hheader). cbn [when].
    rewrite (field_some _ _ _ Hheader), bind_ret. reflexivity. }
  assert (Hprocess : AsfMetadata.processHeader ext header r
    = (is_vbr <~ (AsfMetadata.store ext stored ;; ret flag) ;;
       AsfMetadata.file_prop_block ext header is_vbr ;;
       compression <~ AsfMetadata.codec_list_block ext header ;;
       props <~ array header "stream_prop" ;;
       AsfMetadata.stream_loop header props 0 1 1 ;;
       AsfMetadata.metadata_block header) merged).
  { unfold AsfMetadata.processHeader. unfold bind at 1 6. rewrite Hext. reflexivity. }
  split; [exact Hext|]. split; [exact Hextract|]. split; [exact Hprocess|].
  split; [exact Htool|]. split; [exact Hvers|]. split; [exact Hitems|].
  intros Hencoder. rewrite Hextract, Hprocess.
  apply (keeps_apply (fun r => values (attrs r) "producer")); [|reflexivity].
  apply keeps_bind.
  - apply keeps_bind; [|intros; apply keeps_ret].
    apply store_keeps_producer; [|exact Htool].
    apply take_vbr_lookup. subst rest. rewrite !lookup_delete_ne by discriminate.
    exact Hencoder.
  - intros is_vbr.
    apply keeps_bind; [unfold AsfMetadata.file_prop_block; frame | intros _].
    apply keeps_bind; [apply keeps_codec_list_block | intros _].
    apply keeps_bind; [apply keeps_array | intros props].
    apply keeps_bind; [apply keeps_stream_loop | intros _].
    unfold AsfMetadata.metadata_block. frame.
Qed.

(** A file whose header has the descriptors tool name ["X"], tool version
    ["1"], a VBR flag and ["Foo"] = ["Bar"]: the producer of the record is
    ["X (version 1)"], and its only comment is ["Foo=Bar"]. *)
Lemma C6_tool_producer_witness :
  let run := AsfMetadata.extract sample_ext sample_asf empty_record in
  values (attrs (fst run)) "producer" = [VUni "X (version 1)"] /\
  values (attrs (fst run)) "comment" = [VUni "Foo=Bar"] /\
  snd run = Ok tt.
Proof.
  split.
  - refine (proj2 (proj2 (proj2 (proj2 (proj2 (proj2
      (C6_tool_producer sample_ext sample_asf sample_asf_header
         (imap with_index sample_descriptors) empty_record
         sample_data false false (VUni "X") (VUni "1") _ _ _ _ _ _)))))) _).
    all: vm_compute; reflexivity.
  - split; vm_compute; reflexivity.
Defined.

(** Peels the first step off a sequence that returned, keeping of the
    step only that it left the observation [obs] alone. *)
Ltac peel H obs :=
  let s := fresh "s" in
  let a := fresh "a" in
  let Hs := fresh "Hs" in
  apply bind_ok_inv in H as (s & a & Hs & H);
  apply (keeps_run obs) in Hs; [|frame]; cbv beta in Hs.

(** C7: let [is_vbr] be the flag the block of the extended descriptors
    gives (true, false, or unknown), and let the header have a
    file-properties block with a [max_bitrate] field. A call of
    [processHeader] that returns has written to [bit_rate] the pair of the
    field's value and a text, and nothing else has touched that attribute:
    the pair is the record's bit rate unless it was a candidate already.
    The text is ["VBR (<x> max)"] when the flag is true (it begins with
    ["VBR ("]), ["<x> (CBR)"] when it is false, ["<x> (max)"] when it is
    unknown, [<x>] being the field's display text. *)
Theorem C7_bit_rate_text ext header prop fmax (r r1 r' : MultipleMetadata) is_vbr :
  AsfMetadata.ext_desc_block ext header r = (r1, Ok is_vbr) ->
  field_at header "file_prop/content" = Some prop ->
  field_at prop "max_bitrate" = Some fmax ->
  AsfMetadata.processHeader ext header r = (r', Ok tt) ->
  let x := f_display fmax in
  let pair := VPair (f_value fmax) (AsfMetadata.bit_rate_text is_vbr x) in
  values (attrs r') "bit_rate" = values (setAttribute "bit_rate" pair (attrs r)) "bit_rate" /\
  (existsb (value_eqb pair) (values (attrs r) "bit_rate") = false ->
   get (attrs r') "bit_rate" = Some pair) /\
  match is_vbr with
  | Some true =>
      AsfMetadata.bit_rate_text is_vbr x = "VBR (" +:+ x +:+ " max)" /\
      String.prefix "VBR (" (AsfMetadata.bit_rate_text is_vbr x) = true
  | Some false => AsfMetadata.bit_rate_text is_vbr x = x +:+ " (CBR)"
  | None => AsfMetadata.bit_rate_text is_vbr x = x +:+ " (max)"
  end.
Proof.
  intros Hext Hprop Hmax Hrun x pair.
  assert (Hvals : values (attrs r') "bit_rate"
                  = values (setAttribute "bit_rate" pair (attrs r)) "bit_rate").
  { unfold AsfMetadata.processHeader in Hrun.
    rewrite (bind_run_ok _ _ _ _ _ Hext) in Hrun.
    apply (keeps_run (fun r => values (attrs r) "bit_rate")) in Hext;
      [|apply keeps_ext_desc_block; discriminate].
    apply bind_ok_inv in Hrun as (r2 & [] & Hfile & Hrest).
    apply (keeps_run (fun r => values (attrs r) "bit_rate")) in Hrest.
    2:{ apply keeps_bind; [apply keeps_codec_list_block | intros _].
        apply keeps_bind; [apply keeps_array | intros props].
        apply keeps_bind; [apply keeps_stream_loop | intros _].
        unfold AsfMetadata.metadata_block. frame. }
    cbv beta in Hext, Hrest. rewrite Hrest. clear Hrest r'.
    unfold AsfMetadata.file_prop_block in Hfile.
    rewrite (contains_some _ _ _ Hprop), (field_some _ _ _ Hprop) in Hfile.
    cbn [when] in Hfile. rewrite bind_ret in Hfile.
    do 7 peel Hfile (fun r : MultipleMetadata => values (attrs r) "bit_rate").
    rewrite (value_at_some _ _ _ Hmax), (display_at_some _ _ _ Hmax), !bind_ret in Hfile.
    injection Hfile as <-. cbn [attrs].
    apply values_setAttribute_congr. congruence. }
  split; [exact Hvals|]. split.
  - intros Hfresh. unfold get. rewrite Hvals.
    apply (get_setAttribute_new "bit_rate"); [reflexivity | exact Hfresh].
  - destruct is_vbr as [[|]|]; [split| |]; try reflexivity.
    simpl. match goal with |- String.prefix "" ?s = true => destruct s; reflexivity end.
Qed.

(** With the VBR flag set and a maximum bit rate of 128000, the bit rate is
    the pair of 128000 and a text that begins with ["VBR ("]. *)
Lemma C7_bit_rate_text_witness :
  get (attrs (fst (AsfMetadata.processHeader sample_ext sample_header empty_record)))
      "bit_rate"
  = Some (VPair (VInt 128000) "VBR (128.0 Kbit/sec max)").
Proof.
  refine (proj1 (proj2
    (C7_bit_rate_text sample_ext sample_header
       (node "content"
          [ leaf "creation_date" (VDatetime 0) "2005-10-20 17:11:18";
            leaf "play_duration" (VInt 50000000) "5 sec";
            leaf "seekable" (VBool true) "True";
            leaf "max_bitrate" (VInt 128000) "128.0 Kbit/sec" ])
       (leaf "max_bitrate" (VInt 128000) "128.0 Kbit/sec")
       empty_record
       (fst (AsfMetadata.ext_desc_block sample_ext sample_header empty_record))
       (fst (AsfMetadata.processHeader sample_ext sample_header empty_record))
       (Some true) _ _ _ _)) _);
    vm_compute; reflexivity.
Defined.

(** * Further properties of the extractors *)

Lemma get_setAttribute_ne key key' v (m : Metadata) :
  key <> key' -> get (setAttribute key v m) key' = get m key'.
Proof. intros Hne. unfold get. rewrite values_setAttribute_ne by exact Hne. reflexivity. Qed.

Lemma array_plain {S} (f : Field) (s : S) :
  forall base,
    Path.split_on "/" base "" = [base] ->
    array f base s = (s, Ok (array_of f base)).
Proof. intros base Hsplit. unfold array. rewrite Hsplit. reflexivity. Qed.

(** A loop whose body always returns, returns. *)
Lemma mfor_returns {S Y} (xs : list Y) (body : Y -> M S unit) s :
  (forall y s', snd (body y s') = Ok tt) -> snd (mfor xs body s) = Ok tt.
Proof.
  intros Hbody. revert s. induction xs as [|x xs IH]; intros s; simpl.
  - reflexivity.
  - unfold bind. specialize (Hbody x s).
    destruct (body x s) as [s' [[]|e]]; simpl in Hbody; [apply IH | discriminate].
Qed.

(** ** Matroska tags *)

(** What [processSimpleTag] does, case by case *)
Lemma simple_tag_cases tag (r : MultipleMetadata) :
  MkvMetadata.processSimpleTag tag r = (r, Ok tt) \/
  exists fn fv n key,
    field_at tag "TagName/unicode" = Some fn /\
    field_at tag "TagString/unicode" = Some fv /\
    text_of (f_value fn) = Some n /\
    table_get n MkvMetadata.tag_key = Some key /\
    MkvMetadata.processSimpleTag tag r
    = (MkMultiple (setAttribute key (f_value fv) (attrs r)) (groups r), Ok tt).
Proof.
  unfold MkvMetadata.processSimpleTag, contains.
  destruct (field_at tag "TagName/unicode") as [fn|] eqn:Hn; [|left; reflexivity].
  destruct (field_at tag "TagString/unicode") as [fv|] eqn:Hv; [|left; reflexivity].
  cbn [negb orb].
  rewrite (value_at_some _ _ _ Hn), bind_ret.
  destruct (text_of (f_value fn)) as [n|] eqn:Htext; [|left; reflexivity].
  destruct (table_get n MkvMetadata.tag_key) as [key|] eqn:Hkey; [|left; reflexivity].
  right. exists fn, fv, n, key.
  rewrite (value_at_some _ _ _ Hv), bind_ret. auto.
Qed.

Lemma tag_key_attrs n key :
  table_get n MkvMetadata.tag_key = Some key ->
  In key ["title"; "url"; "copyright"; "creation_date"; "subtitle_author"].
Proof.
  unfold MkvMetadata.tag_key. simpl.
  repeat (destruct (String.eqb n _); [intros [= <-]; simpl; tauto|]). discriminate.
Qed.

(** X1: processing a [Tag] element never raises, whatever its simple tags
    hold or lack; it leaves the groups of the record alone, and every
    attribute other than [title], [url], [copyright], [creation_date] and
    [subtitle_author]. *)
Theorem mkv_tags_never_raise tag (r : MultipleMetadata) :
  let run := MkvMetadata.processTag tag r in
  snd run = Ok tt /\
  groups (fst run) = groups r /\
  forall key,
    ~ In key ["title"; "url"; "copyright"; "creation_date"; "subtitle_author"] ->
    values (attrs (fst run)) key = values (attrs r) key.
Proof.
  unfold MkvMetadata.processTag.
  rewrite (bind_run_ok _ _ _ _ _ (array_plain tag r "SimpleTag" eq_refl)).
  generalize (array_of tag "SimpleTag"). intros fields. revert r.
  induction fields as [|f fields IH]; intros r; simpl.
  - auto.
  - unfold bind.
    destruct (simple_tag_cases f r) as [-> | (fn & fv & n & key & _ & _ & _ & Hkey & ->)].
    + apply IH.
    + destruct (IH (MkMultiple (setAttribute key (f_value fv) (attrs r)) (groups r)))
        as (Hres & Hgroups & Hattrs).
      split; [exact Hres|]. split; [exact Hgroups|].
      intros key' Hout. rewrite (Hattrs key' Hout). simpl.
      apply values_setAttribute_ne. intros ->.
      apply Hout, (tag_key_attrs _ _ Hkey).
Qed.

(** X2: a simple tag whose name is not in the table (any case other than
    the five upper-case names) is dropped: the record is left as it was.
    One whose name is in the table writes the tag's string to the attribute
    the table gives. *)
Theorem mkv_simple_tag_allow_list tag fn fv n (r : MultipleMetadata) :
  field_at tag "TagName/unicode" = Some fn ->
  field_at tag "TagString/unicode" = Some fv ->
  text_of (f_value fn) = Some n ->
  MkvMetadata.processSimpleTag tag r
  = match table_get n MkvMetadata.tag_key with
    | Some key => (MkMultiple (setAttribute key (f_value fv) (attrs r)) (groups r), Ok tt)
    | None => (r, Ok tt)
    end.
Proof.
  intros Hn Hv Htext. unfold MkvMetadata.processSimpleTag.
  rewrite (contains_some _ _ _ Hn), (contains_some _ _ _ Hv). cbn [negb orb].
  rewrite (value_at_some _ _ _ Hn), bind_ret, Htext.
  destruct (table_get n MkvMetadata.tag_key); [|reflexivity].
  rewrite (value_at_some _ _ _ Hv), bind_ret. reflexivity.
Qed.

Lemma mkv_simple_tag_allow_list_witness :
  MkvMetadata.processSimpleTag sample_tag_unknown empty_record = (empty_record, Ok tt) /\
  get (attrs (fst (MkvMetadata.processSimpleTag sample_tag_date empty_record)))
      "creation_date" = Some (VUni "2006").
Proof.
  split.
  - exact (mkv_simple_tag_allow_list sample_tag_unknown
             (leaf "unicode" (VUni "title") "title") (leaf "unicode" (VUni "Big Buck") "Big Buck")
             "title" empty_record eq_refl eq_refl eq_refl).
  - rewrite (mkv_simple_tag_allow_list sample_tag_date
               (leaf "unicode" (VUni "DATE_RECORDED") "DATE_RECORDED")
               (leaf "unicode" (VUni "2006") "2006")
               "DATE_RECORDED" empty_record eq_refl eq_refl eq_refl).
    reflexivity.
Defined.

(** ** Matroska tracks *)

(** X3: a track entry with no [TrackType/enum], or whose type is displayed
    as anything but ["video"], ["audio"] or ["subtitle"], is skipped: the
    record (attributes and groups) is left as it was, and nothing is
    raised, whatever else the entry holds or lacks. *)
Theorem mkv_unclassified_track_skipped ext track (r : MultipleMetadata) :
  (contains track "TrackType/enum" = false \/
   exists kind, field_at track "TrackType/enum" = Some kind /\
                ~ In (f_display kind) ["video"; "audio"; "subtitle"]) ->
  MkvMetadata.processTrack ext track r = (r, Ok tt).
Proof.
  intros [Habsent | (kind & Hkind & Hother)]; unfold MkvMetadata.processTrack.
  - rewrite Habsent. reflexivity.
  - rewrite (contains_some _ _ _ Hkind). cbn [negb].
    rewrite (display_at_some _ _ _ Hkind), bind_ret.
    destruct (String.eqb (f_display kind) "video") eqn:E1.
    { apply String.eqb_eq in E1. exfalso. apply Hother. rewrite E1. simpl. tauto. }
    destruct (String.eqb (f_display kind) "audio") eqn:E2.
    { apply String.eqb_eq in E2. exfalso. apply Hother. rewrite E2. simpl. tauto. }
    destruct (String.eqb (f_display kind) "subtitle") eqn:E3.
    { apply String.eqb_eq in E3. exfalso. apply Hother. rewrite E3. simpl. tauto. }
    reflexivity.
Qed.

Lemma mkv_unclassified_track_skipped_witness :
  MkvMetadata.processTrack sample_ext track_buttons empty_record = (empty_record, Ok tt).
Proof.
  apply mkv_unclassified_track_skipped. right.
  exists (leaf "enum" (VInt 18) "buttons"). split; [reflexivity|].
  simpl. intros [H | [H | [H | []]]]; discriminate H.
Defined.

(** X4: [trackCommon] never raises. A language code ["mis"] or ["und"]
    leaves [language] as it was; any other language writes to [language]
    the display text of the field, not its code. *)
Theorem mkv_track_language track (m : Metadata) :
  let run := MkvMetadata.trackCommon track m in
  snd run = Ok tt /\
  (forall lang, field_at track "Language/string" = Some lang ->
     values (fst run) "language"
     = if value_in (f_value lang) ["mis"; "und"] then values m "language"
       else values (setAttribute "language" (VUni (f_display lang)) m) "language") /\
  (contains track "Language/string" = false ->
   values (fst run) "language" = values m "language").
Proof.
  unfold MkvMetadata.trackCommon, contains.
  destruct (field_at track "Name/unicode") as [name|] eqn:Hname;
    destruct (field_at track "Language/string") as [lang|] eqn:Hlang;
    cbn [when];
    rewrite ?(value_at_some _ _ _ Hname), ?(value_at_some _ _ _ Hlang),
      ?(display_at_some _ _ _ Hlang), ?bind_ret, ?bind_setattr, ?bind_ret;
    (split; [|split]); try discriminate;
    try (intros ? [= <-]);
    try (destruct (value_in (f_value lang) ["mis"; "und"]));
    cbn [negb when]; rewrite ?(display_at_some _ _ _ Hlang), ?bind_ret;
    try reflexivity; intros;
    simpl; rewrite ?values_setAttribute_ne by discriminate;
    try reflexivity;
    apply values_setAttribute_congr, values_setAttribute_ne; discriminate.
Qed.

Lemma mkv_track_language_witness :
  get (fst (MkvMetadata.trackCommon track_und ∅)) "language" = None /\
  get (fst (MkvMetadata.trackCommon track_audio_no_channels ∅)) "language"
  = Some (VUni "French").
Proof.
  split.
  - unfold get.
    rewrite (proj1 (proj2 (mkv_track_language track_und ∅))
               (leaf "string" (VStr "und") "Undetermined") eq_refl).
    reflexivity.
  - unfold get.
    rewrite (proj1 (proj2 (mkv_track_language track_audio_no_channels ∅))
               (leaf "string" (VStr "fre") "French") eq_refl).
    reflexivity.
Defined.

Lemma run_trackCommon track (m : Metadata) :
  MkvMetadata.trackCommon track m = (fst (MkvMetadata.trackCommon track m), Ok tt).
Proof.
  pose proof (proj1 (mkv_track_language track m)) as H. simpl in H.
  destruct (MkvMetadata.trackCommon track m) as [m' res]. simpl in *. congruence.
Qed.

Lemma bind_assoc {S A B C} (c : M S A) (k1 : A -> M S B) (k2 : B -> M S C) s :
  bind (bind c k1) k2 s = bind c (fun a => bind (k1 a) k2) s.
Proof. unfold bind. destruct (c s) as [s' [a|e]]; reflexivity. Qed.

Lemma value_at_none {S} f p (s : S) :
  contains f p = false -> value_at f p s = (s, Raise MissingField).
Proof.
  unfold contains, value_at, field, bind.
  destruct (field_at f p); [discriminate | reflexivity].
Qed.

(** X5: the codec is read first for a video entry and last for an audio
    entry. A video entry with no [CodecID/string] gets a record with the
    common fields only, without width and height even when its [Video]
    block has them; an audio entry with no [CodecID/string] still gets its
    sample rate, truncated to an integer, and its channel count. *)
Theorem mkv_track_without_codec ext track :
  contains track "CodecID/string" = false ->
  MkvMetadata.video_body track ∅
  = (fst (MkvMetadata.trackCommon track ∅), Raise MissingField) /\
  (forall freq chan x n,
     contains track "Audio" = true ->
     field_at track "Audio/SamplingFrequency/float" = Some freq ->
     f_value freq = VFloat x ->
     Py.int_of_float x = Ok n ->
     field_at track "Audio/Channels/unsigned" = Some chan ->
     MkvMetadata.audio_body ext track ∅
     = (setAttribute "nb_channel" (f_value chan)
          (setAttribute "sample_rate" (VInt n) (fst (MkvMetadata.trackCommon track ∅))),
        Raise MissingField)).
Proof.
  intros Hcodec. split.
  - unfold MkvMetadata.video_body.
    rewrite (bind_run_ok _ _ _ _ _ (run_trackCommon track ∅)).
    unfold bind at 1. rewrite (value_at_none _ _ _ Hcodec). reflexivity.
  - intros freq chan x n Haudio Hfreq Hx Hn Hchan.
    unfold MkvMetadata.audio_body.
    rewrite (bind_run_ok _ _ _ _ _ (run_trackCommon track ∅)).
    rewrite Haudio. cbn [when].
    rewrite bind_assoc, (value_at_some _ _ _ Hfreq), bind_ret, Hx. cbn [py_int].
    rewrite Hn, bind_assoc, bind_lift_ok, bind_assoc, bind_setattr.
    rewrite bind_assoc, (value_at_some _ _ _ Hchan), bind_ret.
    unfold bind at 1. cbn [setattr].
    unfold bind at 1. rewrite (value_at_none _ _ _ Hcodec). reflexivity.
Qed.

Lemma mkv_track_without_codec_witness :
  has (fst (MkvMetadata.video_body track_name_only ∅)) "width" = false /\
  get (fst (MkvMetadata.audio_body sample_ext track_audio_no_codec ∅)) "sample_rate"
  = Some (VInt 22050) /\
  get (fst (MkvMetadata.audio_body sample_ext track_audio_no_codec ∅)) "nb_channel"
  = Some (VInt 1).
Proof.
  split.
  - rewrite (proj1 (mkv_track_without_codec sample_ext track_name_only eq_refl)).
    reflexivity.
  - rewrite (proj2 (mkv_track_without_codec sample_ext track_audio_no_codec eq_refl)
               (leaf "float" (VFloat 22050.5) "22050.5") (leaf "unsigned" (VInt 1) "1")
               22050.5%float 22050 eq_refl eq_refl eq_refl eq_refl eq_refl).
    split; reflexivity.
Defined.

(** X6: in a segment, the [Info] and [Tags] elements never touch the
    groups of the record and the [Tracks] elements never touch its
    attributes, whether they return or raise. So a segment with no
    [Tracks] element adds no group, and one with neither [Info] nor [Tags]
    changes no attribute. *)
Theorem mkv_segment_parts ext segment :
  (forall info, keeps groups (MkvMetadata.processInfo ext info)) /\
  (forall tag, keeps groups (MkvMetadata.processTag tag)) /\
  (forall tracks, keeps attrs (MkvMetadata.processTracks ext tracks)) /\
  (Forall (fun f => name_startswith_array f "Tracks" = false) (f_children segment) ->
   keeps groups (MkvMetadata.processSegment ext segment)) /\
  (Forall (fun f => name_startswith_array f "Info" = false /\
                    name_startswith_array f "Tags" = false) (f_children segment) ->
   keeps attrs (MkvMetadata.processSegment ext segment)).
Proof.
  assert (Hinfo : forall info, keeps groups (MkvMetadata.processInfo ext info)).
  { intros info. unfold MkvMetadata.processInfo. frame. }
  assert (Htag : forall tag, keeps groups (MkvMetadata.processTag tag)).
  { intros tag r. destruct (mkv_tags_never_raise tag r) as (_ & Hgroups & _). exact Hgroups. }
  assert (Htracks : forall tracks, keeps attrs (MkvMetadata.processTracks ext tracks)).
  { intros tracks. unfold MkvMetadata.processTracks, MkvMetadata.processTrack,
      MkvMetadata.processVideo, MkvMetadata.processAudio, MkvMetadata.processSubtitle.
    repeat first
      [ apply keeps_bind; [| intros ? ]
      | apply keeps_if
      | apply keeps_mfor; intros ?
      | apply (keeps_attrs_addGroup (fun m : Metadata => m))
      | solve [ auto with frame ] ]. }
  repeat split; auto.
  - intros Hnone. unfold MkvMetadata.processSegment.
    apply keeps_mfor_Forall. eapply Forall_impl; [exact Hnone|].
    intros f Hf. simpl in Hf. rewrite Hf.
    repeat apply keeps_if; auto with frame.
    apply keeps_bind; [apply keeps_array | intros tags; apply keeps_mfor, Htag].
  - intros Hnone. unfold MkvMetadata.processSegment.
    apply keeps_mfor_Forall. eapply Forall_impl; [exact Hnone|].
    intros f [Hi Ht]. rewrite Hi, Ht.
    apply keeps_if; [apply Htracks | apply keeps_ret].
Qed.

Lemma mkv_segment_parts_witness :
  groups (fst (MkvMetadata.processSegment sample_ext (node "Segment[0]" [sample_info])
                 empty_record)) = [] /\
  attrs (fst (MkvMetadata.processSegment sample_ext (node "Segment[0]" [sample_tracks])
                empty_record)) = ∅.
Proof.
  destruct (mkv_segment_parts sample_ext (node "Segment[0]" [sample_info]))
    as (_ & _ & _ & Hgroups & _).
  destruct (mkv_segment_parts sample_ext (node "Segment[0]" [sample_tracks]))
    as (_ & _ & _ & _ & Hattrs).
  split.
  - apply Hgroups. constructor; [reflexivity | constructor].
  - apply Hattrs. constructor; [split; reflexivity | constructor].
Defined.

(** ** Flash video: stream headers and side channel *)

(** X7: the record of an FLV audio header that has its three fields: the
    sample rate the header gives; 16 bits per sample when [is_16bit] is
    true, else 8; two channels when [is_stereo] is true, else one; and as
    compression the description of [music_data] when the codec is displayed
    as ["MP3"] and [music_data] is there, else the display text of the
    codec. *)
Theorem flv_audio_record ext audio rate f16 fcodec fstereo :
  getSampleRate ext audio = Ok rate ->
  field_at audio "is_16bit" = Some f16 ->
  field_at audio "codec" = Some fcodec ->
  field_at audio "is_stereo" = Some fstereo ->
  let compression :=
    match field_at audio "music_data" with
    | Some music =>
        if String.eqb (f_display fcodec) "MP3" then f_description music
        else f_display fcodec
    | None => f_display fcodec
    end in
  FlvMetadata.audio_meta ext audio ∅
  = (setAttribute "nb_channel" (VInt (if Py.truthy (f_value fstereo) then 2 else 1))
       (setAttribute "compression" (VUni compression)
          (setAttribute "bits_per_sample" (VInt (if Py.truthy (f_value f16) then 16 else 8))
             (setAttribute "sample_rate" rate ∅))),
     Ok tt).
Proof.
  intros Hrate H16 Hcodec Hstereo compression. subst compression.
  unfold FlvMetadata.audio_meta.
  rewrite Hrate, bind_lift_ok, bind_setattr, (value_at_some _ _ _ H16), bind_ret.
  assert (Hbits : forall k : unit -> M Metadata unit, forall m,
    bind (if Py.truthy (f_value f16) then setattr "bits_per_sample" (VInt 16)
          else setattr "bits_per_sample" (VInt 8)) k m
    = k tt (setAttribute "bits_per_sample"
              (VInt (if Py.truthy (f_value f16) then 16 else 8)) m)).
  { intros k m. destruct (Py.truthy (f_value f16)); reflexivity. }
  rewrite Hbits, !(display_at_some _ _ _ Hcodec), bind_ret.
  unfold contains.
  destruct (field_at audio "music_data") as [music|] eqn:Hmusic;
    destruct (String.eqb (f_display fcodec) "MP3"); cbn [andb];
    rewrite bind_assoc, ?(field_some _ _ _ Hmusic), ?bind_ret, ?bind_setattr,
      (value_at_some _ _ _ Hstereo), bind_ret;
    destruct (Py.truthy (f_value fstereo)); reflexivity.
Qed.

(** Codec MP3 with the inline description "MPEG-1 Layer 3": the
    compression is the description, not the codec label. *)
Lemma flv_audio_record_witness :
  get (fst (FlvMetadata.audio_meta sample_ext sample_flv_audio ∅)) "compression"
  = Some (VUni "MPEG-1 Layer 3") /\
  get (fst (FlvMetadata.audio_meta sample_ext sample_flv_audio ∅)) "nb_channel"
  = Some (VInt 2).
Proof.
  rewrite (flv_audio_record sample_ext sample_flv_audio (VInt 44100)
             (leaf "is_16bit" (VBool true) "True") (leaf "codec" (VInt 2) "MP3")
             (leaf "is_stereo" (VBool true) "True") eq_refl eq_refl eq_refl eq_refl).
  split; reflexivity.
Defined.

(** X8: the FLV extractor has no handler. When reading the audio header
    raises (a missing field, say), [extract] raises the same exception and
    leaves the record as it was: no audio group, no video group, no
    [format_version]. *)
Theorem flv_audio_error_aborts ext flv audio e (r : MultipleMetadata) :
  field_at flv "audio[0]" = Some audio ->
  snd (FlvMetadata.audio_meta ext audio ∅) = Raise e ->
  FlvMetadata.extract ext flv r = (r, Raise e).
Proof.
  intros Haudio Hraise.
  unfold FlvMetadata.extract, FlvMetadata.extract_streams.
  rewrite (contains_some _ _ _ Haudio). cbn [when].
  rewrite (field_some _ _ _ Haudio), bind_ret.
  unfold bind, on_new.
  destruct (FlvMetadata.audio_meta ext audio ∅) as [m res]. simpl in Hraise.
  rewrite Hraise. reflexivity.
Qed.

Lemma flv_audio_error_aborts_witness :
  FlvMetadata.extract sample_ext sample_flv_broken empty_record
  = (empty_record, Raise MissingField).
Proof.
  exact (flv_audio_error_aborts sample_ext sample_flv_broken
           (node "audio[0]"
              [ leaf "codec" (VInt 2) "MP3"; leaf "is_16bit" (VBool true) "True" ])
           MissingField empty_record eq_refl eq_refl).
Defined.

Lemma value_in_cons v s l :
  value_in v (s :: l) = value_in v [s] || value_in v l.
Proof.
  unfold value_in. destruct (text_of v); simpl; [|reflexivity].
  rewrite orb_false_r. reflexivity.
Qed.

(** X9: side-channel entries whose key is none of [duration], [creator],
    [audiosamplerate], [framerate], [metadatacreator], [metadatadate],
    [width], [height] (the comparison is exact, case included) are
    ignored: the record is left as it was, whatever their values. *)
Theorem flv_amf_unknown_keys_ignored ext amf (r : MultipleMetadata) :
  Forall (fun entry =>
            exists key, field_at entry "key" = Some key /\
              value_in (f_value key)
                ["duration"; "creator"; "audiosamplerate"; "framerate";
                 "metadatacreator"; "metadatadate"; "width"; "height"] = false)
         (array_of amf "item") ->
  FlvMetadata.extractAMF ext amf r = (r, Ok tt).
Proof.
  intros Hall. unfold FlvMetadata.extractAMF.
  rewrite (bind_run_ok _ _ _ _ _ (array_plain amf r "item" eq_refl)).
  induction Hall as [|entry entries (key & Hkey & Hnot) _ IH]; simpl.
  - reflexivity.
  - rewrite bind_assoc, (value_at_some _ _ _ Hkey), bind_ret.
    repeat (rewrite value_in_cons in Hnot; apply orb_false_iff in Hnot as [-> Hnot]).
    exact IH.
Qed.

Lemma flv_amf_unknown_keys_ignored_witness :
  FlvMetadata.extractAMF sample_ext sample_amf_unknown empty_record = (empty_record, Ok tt).
Proof.
  apply flv_amf_unknown_keys_ignored.
  constructor; [|constructor; [|constructor]].
  - exists (leaf "key" (VStr "videodatarate") "videodatarate"). split; reflexivity.
  - exists (leaf "key" (VStr "Duration") "Duration"). split; reflexivity.
Defined.

(** X10: a duration of zero seconds makes the last statement of [extract]
    divide by zero: [extract] raises ZeroDivisionError, the record keeping
    what was written before and having no [bit_rate]. *)
Theorem flv_zero_duration_raises ext flv (r r1 : MultipleMetadata) d secs sz :
  FlvMetadata.extract_streams ext flv r = (r1, Ok tt) ->
  get (attrs r1) "duration" = Some d ->
  timedelta2seconds d = Ok secs ->
  PrimFloat.eqb secs 0 = true ->
  Py.float_of_int (f_size flv) = Ok sz ->
  FlvMetadata.extract ext flv r = (r1, Raise ZeroDivisionError).
Proof.
  intros Hpre Hd Hsecs Hzero Hsz.
  unfold FlvMetadata.extract. rewrite (bind_run_ok _ _ _ _ _ Hpre).
  unfold FlvMetadata.derive_bit_rate, bind, self_has, self_get, when.
  rewrite (has_of_get _ _ _ Hd), Hd. simpl. rewrite Hsecs. simpl.
  rewrite Hsz, Hzero. reflexivity.
Qed.

Lemma flv_zero_duration_raises_witness :
  snd (FlvMetadata.extract sample_ext sample_flv_zero empty_record) = Raise ZeroDivisionError /\
  has (attrs (fst (FlvMetadata.extract sample_ext sample_flv_zero empty_record))) "bit_rate"
  = false.
Proof.
  rewrite (flv_zero_duration_raises sample_ext sample_flv_zero empty_record
             (fst (FlvMetadata.extract_streams sample_ext sample_flv_zero empty_record))
             (VTimedelta 0) 0%float 1000000%float
             eq_refl eq_refl eq_refl eq_refl eq_refl).
  split; reflexivity.
Defined.

(** ** QuickTime: errors and atoms *)

(** X11: a movie header whose time scale is zero makes [processMovieHeader]
    raise ZeroDivisionError before anything is written: the record is left
    as it was. *)
Theorem mov_zero_time_scale_raises ext hdr (m : Metadata) fd fs ticks :
  field_at hdr "duration" = Some fd -> f_value fd = VInt ticks ->
  field_at hdr "time_scale" = Some fs -> f_value fs = VInt 0 ->
  MovMetadata.processMovieHeader ext hdr m = (m, Raise ZeroDivisionError).
Proof.
  intros Hd Hdv Hs Hsv. unfold MovMetadata.processMovieHeader.
  rewrite (value_at_some _ _ _ Hd), bind_ret, Hdv. cbn [Py.mul].
  rewrite bind_lift_ok, (value_at_some _ _ _ Hs), bind_ret, Hsv. reflexivity.
Qed.

Lemma mov_zero_time_scale_raises_witness :
  MovMetadata.processMovieHeader sample_ext sample_hdr_zero_scale ∅
  = (∅, Raise ZeroDivisionError).
Proof.
  exact (mov_zero_time_scale_raises sample_ext sample_hdr_zero_scale ∅
           (leaf "duration" (VInt 90000) "90000") (leaf "time_scale" (VInt 0) "0")
           90000 eq_refl eq_refl eq_refl eq_refl).
Defined.

Lemma bind_ext_rest {S A B} (c : M S A) (k k' : A -> M S B) s :
  (forall a s', k a s' = k' a s') -> bind c k s = bind c k' s.
Proof.
  intros Hk. unfold bind. destruct (c s) as [s' [a|e]]; [apply Hk | reflexivity].
Qed.

Lemma mfor_skip_then_raise {S Y} (pre post : list Y) (x : Y) (body : Y -> M S unit) s s' e :
  Forall (fun y => forall t, body y t = (t, Ok tt)) pre ->
  body x s = (s', Raise e) ->
  mfor (pre ++ x :: post) body s = (s', Raise e).
Proof.
  intros Hpre Hx. induction Hpre as [|y pre Hy _ IH]; simpl.
  - unfold bind. rewrite Hx. reflexivity.
  - unfold bind. rewrite Hy. exact IH.
Qed.

(** X12: the MOV extractor has no handler. When the first movie header of
    the tree makes [processMovieHeader] raise, [extract] raises the same
    exception, the record being as the header left it; the atoms after it
    are not read. *)
Theorem mov_header_error_aborts ext mov pre atom post movie pre' fld post' hdr
    (m m' : Metadata) e :
  f_children mov = pre ++ atom :: post ->
  Forall (fun a => contains a "movie" = false) pre ->
  field_at atom "movie" = Some movie ->
  f_children movie = pre' ++ fld :: post' ->
  Forall (fun f => contains f "movie_hdr" = false) pre' ->
  field_at fld "movie_hdr" = Some hdr ->
  MovMetadata.processMovieHeader ext hdr m = (m', Raise e) ->
  MovMetadata.extract ext mov m = (m', Raise e).
Proof.
  intros Hmov Hpre Hatom Hmovie Hpre' Hfld Hraise.
  unfold MovMetadata.extract. rewrite Hmov.
  apply mfor_skip_then_raise.
  - eapply Forall_impl; [exact Hpre|]. intros a Ha t. simpl in Ha. rewrite Ha. reflexivity.
  - rewrite (contains_some _ _ _ Hatom). cbn [when].
    rewrite (field_some _ _ _ Hatom), bind_ret.
    unfold MovMetadata.processMovie. rewrite Hmovie.
    apply mfor_skip_then_raise.
    + eapply Forall_impl; [exact Hpre'|]. intros f Hf t. simpl in Hf. rewrite Hf. reflexivity.
    + rewrite (contains_some _ _ _ Hfld). cbn [when].
      rewrite (field_some _ _ _ Hfld), bind_ret. exact Hraise.
Qed.

(** A movie header that stops after its time scale: the duration is
    written, then the missing creation date ends the whole extraction. *)
Lemma mov_header_error_aborts_witness :
  MovMetadata.extract sample_ext sample_mov_short ∅
  = (setAttribute "duration" (VInt 150000) ∅, Raise MissingField).
Proof.
  refine (mov_header_error_aborts sample_ext sample_mov_short
            [node "atom[0]" [ leaf "size" (VInt 32) "32"; leaf "tag" (VStr "ftyp") "ftyp" ]]
            _ [node "atom[2]" [ leaf "tag" (VStr "mdat") "mdat" ]]
            (node "movie"
               [ node "atom[0]" [ leaf "tag" (VStr "mvhd") "mvhd"; sample_hdr_short ] ])
            [] _ [] sample_hdr_short ∅ _ MissingField
            eq_refl _ eq_refl eq_refl _ eq_refl eq_refl).
  - constructor; [reflexivity | constructor].
  - constructor.
Defined.

(** X13: the MOV extractor looks only at the top-level atoms that have a
    [movie] child: two trees with the same such atoms, in the same order,
    give the same result. *)
Theorem mov_only_movie_atoms ext mov mov' (m : Metadata) :
  List.filter (fun atom => contains atom "movie") (f_children mov)
  = List.filter (fun atom => contains atom "movie") (f_children mov') ->
  MovMetadata.extract ext mov m = MovMetadata.extract ext mov' m.
Proof.
  intros Hsame.
  assert (Hfilter : forall atoms s,
    mfor atoms (fun atom =>
      when (contains atom "movie") (
        movie <~ field atom "movie" ;; MovMetadata.processMovie ext movie)) s
    = mfor (List.filter (fun atom => contains atom "movie") atoms) (fun atom =>
        movie <~ @field Metadata atom "movie" ;; MovMetadata.processMovie ext movie) s).
  { induction atoms as [|atom atoms IH]; intros s; simpl.
    - reflexivity.
    - destruct (contains atom "movie"); simpl.
      + apply bind_ext_rest. intros _ s'. apply IH.
      + rewrite bind_ret. apply IH. }
  unfold MovMetadata.extract. rewrite !Hfilter, Hsame. reflexivity.
Qed.

Lemma mov_only_movie_atoms_witness :
  MovMetadata.extract sample_ext sample_mov_short ∅
  = MovMetadata.extract sample_ext (node "root" [sample_moov]) ∅.
Proof. apply mov_only_movie_atoms. reflexivity. Defined.

(** ** ASF: codec list, metadata block, file properties *)

Lemma codec_text_returns {S} ext codec (s : S) :
  contains codec "name" = true ->
  exists text, AsfMetadata.codec_text ext codec s = (s, Ok text).
Proof.
  intros Hname. apply contains_true in Hname as [name Hname].
  unfold AsfMetadata.codec_text, contains.
  rewrite (value_at_some _ _ _ Hname), bind_ret.
  destruct (field_at codec "desc") as [desc|] eqn:Hdesc.
  - rewrite !(value_at_some _ _ _ Hdesc), bind_ret, bind_ret.
    destruct (Py.truthy (f_value desc)); rewrite ?bind_ret; eauto.
  - rewrite bind_ret. eauto.
Qed.

Lemma codec_loop_returns {S} ext codecs acc (s : S) :
  exists l, AsfMetadata.codec_loop ext codecs acc s = (s, Ok l).
Proof.
  revert acc. induction codecs as [|codec codecs IH]; intros acc; simpl.
  - eauto.
  - destruct (contains codec "name") eqn:Hname; [|apply IH].
    destruct (codec_text_returns ext codec s Hname) as [text Htext].
    rewrite (bind_run_ok _ _ _ _ _ Htext). apply IH.
Qed.

Lemma codec_list_block_returns {S} ext header (s : S) :
  exists l, AsfMetadata.codec_list_block ext header s = (s, Ok l).
Proof.
  unfold AsfMetadata.codec_list_block.
  destruct (contains header "codec_list/content") eqn:Hlist; [|eexists; reflexivity].
  apply contains_true in Hlist as [content Hcontent].
  assert (Harray : array header "codec_list/content/codec" s
                   = (s, Ok (array_of content "codec"))).
  { unfold array.
    change (map Path.parse_name (removelast (Path.split_on "/" "codec_list/content/codec" "")))
      with (path "codec_list/content").
    change (getField header (path "codec_list/content"))
      with (field_at header "codec_list/content").
    rewrite Hcontent. reflexivity. }
  rewrite (bind_run_ok _ _ _ _ _ Harray). apply codec_loop_returns.
Qed.

(** X14: the codec list has no effect. Reading it never raises and never
    changes the record, and its result is not used: [processHeader] does
    what it would do without that step, so no stream ever takes its
    compression from the codec list. *)
Theorem asf_codec_list_unused ext header (r : MultipleMetadata) :
  (exists l, AsfMetadata.codec_list_block ext header r = (r, Ok l)) /\
  AsfMetadata.processHeader ext header r
  = (is_vbr <~ AsfMetadata.ext_desc_block ext header ;;
     AsfMetadata.file_prop_block ext header is_vbr ;;
     props <~ array header "stream_prop" ;;
     AsfMetadata.stream_loop header props 0 1 1 ;;
     AsfMetadata.metadata_block header) r.
Proof.
  split; [apply codec_list_block_returns|].
  unfold AsfMetadata.processHeader.
  apply bind_ext_rest. intros is_vbr s1.
  apply bind_ext_rest. intros _ s2.
  destruct (codec_list_block_returns ext header s2) as [l Hl].
  rewrite (bind_run_ok _ _ _ _ _ Hl). reflexivity.
Qed.

(** X15: the metadata block never raises and never touches the groups.
    Its three reads stop at the first missing field: with a title and no
    author, the title is written and the copyright is not, present or
    not. *)
Theorem asf_metadata_block_stops header (r : MultipleMetadata) :
  let run := AsfMetadata.metadata_block header r in
  snd run = Ok tt /\
  groups (fst run) = groups r /\
  (forall info title,
      field_at header "metadata/content" = Some info ->
      field_at info "title" = Some title ->
      contains info "author" = false ->
      fst run = MkMultiple (setAttribute "title" (f_value title) (attrs r)) (groups r)).
Proof.
  unfold AsfMetadata.metadata_block, contains.
  destruct (field_at header "metadata/content") as [info|] eqn:Hinfo; cbn [when].
  2:{ repeat split. intros ? ? [=]. }
  rewrite (field_some _ _ _ Hinfo), bind_ret.
  unfold try_missing, value_at, field, bind, self_setattr, contains.
  split; [|split].
  - destruct (field_at info "title"), (field_at info "author"),
      (field_at info "copyright"); reflexivity.
  - destruct (field_at info "title"), (field_at info "author"),
      (field_at info "copyright"); reflexivity.
  - intros info' title [= <-] Htitle Hauthor. rewrite Htitle.
    destruct (field_at info "author"); [discriminate Hauthor | reflexivity].
Qed.

Lemma asf_metadata_block_stops_witness :
  let r := fst (AsfMetadata.metadata_block sample_header_streams empty_record) in
  get (attrs r) "title" = Some (VUni "Holiday") /\ has (attrs r) "copyright" = false.
Proof.
  intros r. subst r.
  rewrite (proj2 (proj2 (asf_metadata_block_stops sample_header_streams empty_record))
             (node "content"
                [ leaf "title" (VUni "Holiday") "Holiday";
                  leaf "copyright" (VUni "(c) 2005") "(c) 2005" ])
             (leaf "title" (VUni "Holiday") "Holiday") eq_refl eq_refl eq_refl).
  split; reflexivity.
Defined.

(** X16: without a file-properties block the header gives the record no
    [bit_rate] and no [duration]: [processHeader] leaves the candidates of
    both attributes as they were, whether it returns or raises. *)
Theorem asf_no_file_properties ext header :
  contains header "file_prop/content" = false ->
  keeps (fun r => values (attrs r) "bit_rate") (AsfMetadata.processHeader ext header) /\
  keeps (fun r => values (attrs r) "duration") (AsfMetadata.processHeader ext header).
Proof.
  intros Hnone. unfold AsfMetadata.processHeader, AsfMetadata.file_prop_block.
  rewrite Hnone. cbn [when].
  split.
  - apply keeps_bind; [apply keeps_ext_desc_block; discriminate | intros is_vbr].
    apply keeps_bind; [apply keeps_ret | intros _].
    apply keeps_bind; [apply keeps_codec_list_block | intros _].
    apply keeps_bind; [apply keeps_array | intros props].
    apply keeps_bind; [apply keeps_stream_loop | intros _].
    unfold AsfMetadata.metadata_block. frame.
  - apply keeps_bind; [apply keeps_ext_desc_block; discriminate | intros is_vbr].
    apply keeps_bind; [apply keeps_ret | intros _].
    apply keeps_bind; [apply keeps_codec_list_block | intros _].
    apply keeps_bind; [apply keeps_array | intros props].
    apply keeps_bind; [apply keeps_stream_loop | intros _].
    unfold AsfMetadata.metadata_block. frame.
Qed.

Lemma asf_no_file_properties_witness :
  let r := fst (AsfMetadata.processHeader sample_ext sample_header_streams empty_record) in
  values (attrs r) "bit_rate" = [] /\ values (attrs r) "duration" = [].
Proof.
  destruct (asf_no_file_properties sample_ext sample_header_streams eq_refl) as [Hb Hd].
  split; [apply (Hb empty_record) | apply (Hd empty_record)].
Defined.

(** ** ASF: the dictionary of the descriptors *)

Lemma read_descriptor_cases {S} ext (data : AsfMetadata.Data) desc (s s' : S) data' :
  AsfMetadata.read_descriptor ext data desc s = (s', Ok data') ->
  data' = data \/
  exists key kind v, Py.truthy v = true /\ data' = AsfMetadata.data_set key kind v data.
Proof.
  unfold AsfMetadata.read_descriptor, value_at, field, bind, ret, raise.
  destruct (field_at desc "type") as [ty|]; [|discriminate].
  destruct (value_eqb (f_value ty) (TYPE_BYTE_ARRAY ext)); [intros [= _ <-]; auto|].
  destruct (field_at desc "name") as [name|]; [|discriminate].
  destruct (value_in (f_value name) AsfMetadata.SKIP_EXT_DESC); [intros [= _ <-]; auto|].
  destruct (field_at desc "value") as [value|]; [|discriminate].
  destruct (f_value name); try discriminate;
    (match goal with |- context [Py.truthy ?v] => destruct (Py.truthy v) eqn:Htruthy end;
     cbn [negb]; intros [= _ <-]; [right; eauto | auto]).
Qed.

Lemma data_set_truthy key kind v (data : AsfMetadata.Data) :
  all_truthy data -> Py.truthy v = true -> all_truthy (AsfMetadata.data_set key kind v data).
Proof.
  intros Hall Hv key' kind' v'. unfold AsfMetadata.data_set.
  destruct (data !! key) as [[kind0 v0]|];
    (destruct (decide (key = key')) as [<- | Hne];
     [rewrite lookup_insert_eq; intros [= _ <-]; exact Hv
     |rewrite lookup_insert_ne by exact Hne; apply Hall]).
Qed.

Lemma read_descriptors_truthy {S} ext descs (data data' : AsfMetadata.Data) (s s' : S) :
  all_truthy data ->
  AsfMetadata.read_descriptors ext descs data s = (s', Ok data') ->
  all_truthy data'.
Proof.
  revert data s. induction descs as [|desc descs IH]; intros data s Hall; simpl.
  - intros [= _ <-]. exact Hall.
  - intros Hrun. apply bind_ok_inv in Hrun as (s1 & data1 & Hone & Hrest).
    apply (IH data1 s1); [|exact Hrest].
    destruct (read_descriptor_cases _ _ _ _ _ _ Hone) as [-> | (k & kind & v & Hv & ->)].
    + exact Hall.
    + apply data_set_truthy; assumption.
Qed.

Lemma store_returns ext (data : AsfMetadata.Data) (r : MultipleMetadata) :
  snd (AsfMetadata.store ext data r) = Ok tt.
Proof.
  unfold AsfMetadata.store. apply mfor_returns.
  intros [key [is_str value]] s. unfold AsfMetadata.store_item.
  destruct (table_get key AsfMetadata.EXT_DESC_TO_ATTR); reflexivity.
Qed.

(** X17: every value the loop over the descriptors keeps is true as a
    truth value, since a false one ends the turn before the assignment.
    So an [IsVBR] descriptor holding false or 0 is dropped like an empty
    string: the flag the block returns is unknown, not false. A block
    whose descriptors are read without error returns as flag whether the
    kept [IsVBR] value equals 1, and a kept boolean always gives true. *)
Theorem asf_vbr_flag ext descs (r : MultipleMetadata) (data : AsfMetadata.Data) :
  AsfMetadata.read_descriptors ext descs ∅ r = (r, Ok data) ->
  all_truthy data /\
  snd (AsfMetadata.process_descriptors ext descs r)
  = Ok (match data !! "IsVBR" with
        | Some (_, v) => Some (AsfMetadata.py_eq_int v 1)
        | None => None
        end) /\
  (forall kind b, data !! "IsVBR" = Some (kind, VBool b) ->
     snd (AsfMetadata.process_descriptors ext descs r) = Ok (Some true)).
Proof.
  intros Hread.
  assert (Hall : all_truthy data).
  { apply (read_descriptors_truthy ext descs ∅ data r r); [|exact Hread].
    intros key kind v Hin. rewrite lookup_empty in Hin. discriminate Hin. }
  assert (Hflag : snd (AsfMetadata.process_descriptors ext descs r)
    = Ok (match data !! "IsVBR" with
          | Some (_, v) => Some (AsfMetadata.py_eq_int v 1)
          | None => None
          end)).
  { unfold AsfMetadata.process_descriptors.
    rewrite (bind_run_ok _ _ _ _ _ Hread).
    assert (Hmerge : exists r1 data1,
               AsfMetadata.merge_tool ext data r = (r1, Ok data1) /\
               data1 !! "IsVBR" = data !! "IsVBR").
    { unfold AsfMetadata.merge_tool.
      destruct (data !! "ToolName") as [[? name]|]; [|eauto].
      destruct (data !! "ToolVersion") as [[? version]|]; [|eauto].
      eexists _, _. split; [reflexivity|].
      rewrite !lookup_delete_ne by discriminate. reflexivity. }
    destruct Hmerge as (r1 & data1 & Hmerge & Hsame).
    rewrite (bind_run_ok _ _ _ _ _ Hmerge).
    unfold AsfMetadata.take_vbr. rewrite Hsame.
    destruct (data !! "IsVBR") as [[kind v]|];
      (unfold bind;
       match goal with |- context [AsfMetadata.store ext ?d r1] =>
         pose proof (store_returns ext d r1) as Hstore;
         destruct (AsfMetadata.store ext d r1) as [r2 res]
       end; simpl in Hstore; rewrite Hstore; reflexivity). }
  split; [exact Hall|]. split; [exact Hflag|].
  intros kind b Hvbr. rewrite Hflag, Hvbr.
  specialize (Hall _ _ _ Hvbr). simpl in Hall. subst b. reflexivity.
Qed.

(** An [IsVBR] descriptor holding false: the flag is unknown. *)
Lemma asf_vbr_flag_witness :
  snd (AsfMetadata.process_descriptors sample_ext
         [descriptor 2 "IsVBR" (VBool false)] empty_record) = Ok None.
Proof.
  exact (proj1 (proj2 (asf_vbr_flag sample_ext [descriptor 2 "IsVBR" (VBool false)]
                         empty_record ∅ eq_refl))).
Defined.

(** X18: a single descriptor with a text name and a non-empty text value,
    neither of the byte-array type nor in the skip set: the part of its
    name before the first ["/"] is dropped. If what is left is [IsVBR],
    the value is taken as the VBR flag: nothing is written and, a text
    never being equal to 1, the flag is false. Otherwise the flag is
    unknown, and if what is left is a key of the table the value is
    written to the attribute the table gives, else the comment
    ["<key>=<value>"] is written. *)
Theorem asf_single_descriptor ext desc ty fname fv name v (r : MultipleMetadata) :
  field_at desc "type" = Some ty ->
  value_eqb (f_value ty) (TYPE_BYTE_ARRAY ext) = false ->
  field_at desc "name" = Some fname -> f_value fname = VUni name ->
  value_in (VUni name) AsfMetadata.SKIP_EXT_DESC = false ->
  field_at desc "value" = Some fv -> f_value fv = VUni v -> v <> "" ->
  let key := match AsfMetadata.after_slash name with Some k => k | None => name end in
  AsfMetadata.process_descriptors ext [desc] r
  = if String.eqb key "IsVBR" then (r, Ok (Some false))
    else
      (match table_get key AsfMetadata.EXT_DESC_TO_ATTR with
       | Some attr => MkMultiple (setAttribute attr (VUni v) (attrs r)) (groups r)
       | None =>
           MkMultiple (setAttribute "comment" (VUni (key +:+ "=" +:+ v)) (attrs r)) (groups r)
       end, Ok None).
Proof.
  intros Hty Hbytes Hname Hnamev Hskip Hvalue Hvaluev Hne key.
  assert (Hread : AsfMetadata.read_descriptors ext [desc] ∅ r
                  = (r, Ok ({[ key := (false, VUni v) ]} : AsfMetadata.Data))).
  { simpl. unfold AsfMetadata.read_descriptor.
    rewrite (value_at_some _ _ _ Hty), bind_ret, Hbytes.
    rewrite (value_at_some _ _ _ Hname), bind_ret, Hnamev, Hskip.
    rewrite (value_at_some _ _ _ Hvalue), bind_ret, Hvaluev.
    apply String.eqb_neq in Hne. cbn [Py.truthy]. rewrite Hne. cbn [negb].
    rewrite bind_ret. reflexivity. }
  unfold AsfMetadata.process_descriptors. rewrite (bind_run_ok _ _ _ _ _ Hread).
  assert (Hmerge : AsfMetadata.merge_tool ext ({[ key := (false, VUni v) ]}) r
                   = (r, Ok ({[ key := (false, VUni v) ]} : AsfMetadata.Data))).
  { unfold AsfMetadata.merge_tool.
    destruct (decide (key = "ToolName")) as [-> | Hn].
    - rewrite lookup_singleton_eq, lookup_singleton_ne by discriminate. reflexivity.
    - rewrite lookup_singleton_ne by exact Hn. reflexivity. }
  rewrite (bind_run_ok _ _ _ _ _ Hmerge).
  unfold AsfMetadata.take_vbr.
  destruct (String.eqb key "IsVBR") eqn:Hvbr.
  - apply String.eqb_eq in Hvbr. rewrite Hvbr, lookup_singleton_eq, delete_singleton_eq.
    cbv beta iota. unfold AsfMetadata.store. rewrite map_to_list_empty. reflexivity.
  - apply String.eqb_neq in Hvbr. rewrite lookup_singleton_ne by exact Hvbr.
    cbv beta iota.
    unfold AsfMetadata.store. rewrite map_to_list_singleton. cbn [mfor].
    unfold AsfMetadata.store_item.
    destruct (table_get key AsfMetadata.EXT_DESC_TO_ATTR); reflexivity.
Qed.

(** The descriptor ["WM/AlbumTitle"] goes to [album]; the unmapped
    ["Foo"] = ["Bar"] gives the comment ["Foo=Bar"]; ["IsVBR"] = ["yes"]
    writes nothing and gives the flag false. *)
Lemma asf_single_descriptor_witness :
  get (attrs (fst (AsfMetadata.process_descriptors sample_ext
                     [descriptor 0 "WM/AlbumTitle" (VUni "Blue")] empty_record))) "album"
  = Some (VUni "Blue") /\
  get (attrs (fst (AsfMetadata.process_descriptors sample_ext
                     [descriptor 0 "Foo" (VUni "Bar")] empty_record))) "comment"
  = Some (VUni "Foo=Bar") /\
  AsfMetadata.process_descriptors sample_ext
    [descriptor 0 "IsVBR" (VUni "yes")] empty_record = (empty_record, Ok (Some false)).
Proof.
  split; [|split].
  - rewrite (asf_single_descriptor sample_ext (descriptor 0 "WM/AlbumTitle" (VUni "Blue"))
               (leaf "type" (VInt 0) "") (leaf "name" (VUni "WM/AlbumTitle") "WM/AlbumTitle")
               (leaf "value" (VUni "Blue") "") "WM/AlbumTitle" "Blue" empty_record
               eq_refl eq_refl eq_refl eq_refl eq_refl eq_refl eq_refl
               ltac:(discriminate)).
    reflexivity.
  - rewrite (asf_single_descriptor sample_ext (descriptor 0 "Foo" (VUni "Bar"))
               (leaf "type" (VInt 0) "") (leaf "name" (VUni "Foo") "Foo")
               (leaf "value" (VUni "Bar") "") "Foo" "Bar" empty_record
               eq_refl eq_refl eq_refl eq_refl eq_refl eq_refl eq_refl
               ltac:(discriminate)).
    reflexivity.
  - exact (asf_single_descriptor sample_ext (descriptor 0 "IsVBR" (VUni "yes"))
             (leaf "type" (VInt 0) "") (leaf "name" (VUni "IsVBR") "IsVBR")
             (leaf "value" (VUni "yes") "") "IsVBR" "yes" empty_record
             eq_refl eq_refl eq_refl eq_refl eq_refl eq_refl eq_refl
             ltac:(discriminate)).
Defined.

(** ** ASF: the loop over the stream properties *)

Lemma bind_ok_rest {S A B} (c : M S A) (k k' : A -> M S B) s s' b :
  bind c k s = (s', Ok b) ->
  exists s1 a, k a s1 = (s', Ok b) /\ bind c k' s = k' a s1.
Proof.
  unfold bind. destruct (c s) as [s1 [a|e]]; intros H; [eauto | discriminate H].
Qed.

(** The loop over [pre ++ post], once it has got through [pre], goes on
    with [post]: the raw index has advanced by the length of [pre], each
    counter by the number of streams of its kind. *)
Lemma stream_loop_app header pre post i a v (r r1 : MultipleMetadata) :
  AsfMetadata.stream_loop header pre i a v r = (r1, Ok tt) ->
  AsfMetadata.stream_loop header (pre ++ post) i a v r
  = AsfMetadata.stream_loop header post
      (i + length pre) (a + count_audio pre) (v + count_video pre) r1.
Proof.
  revert i a v r. induction pre as [|p pre IH]; intros i a v r; simpl.
  - intros [= ->]. unfold count_audio, count_video. simpl.
    rewrite !Nat.add_0_r. reflexivity.
  - unfold count_audio, count_video. simpl.
    destruct (contains p "content/audio_header") eqn:Haudio; cbn [negb andb]; simpl.
    + intros Hrun.
      eapply bind_ok_rest in Hrun as (s1 & audio & Hrun & ->).
      eapply bind_ok_rest in Hrun as (s2 & meta & Hrun & ->).
      eapply bind_ok_rest in Hrun as (s3 & [] & Hrun & ->).
      rewrite (IH _ _ _ _ Hrun). unfold count_audio, count_video.
      rewrite <- !Nat.add_succ_comm. reflexivity.
    + destruct (contains p "content/video_header") eqn:Hvideo; simpl.
      * intros Hrun.
        eapply bind_ok_rest in Hrun as (s1 & video & Hrun & ->).
        eapply bind_ok_rest in Hrun as (s2 & meta & Hrun & ->).
        eapply bind_ok_rest in Hrun as (s3 & [] & Hrun & ->).
        rewrite (IH _ _ _ _ Hrun). unfold count_audio, count_video.
        rewrite <- !Nat.add_succ_comm. reflexivity.
      * intros Hrun. rewrite (IH _ _ _ _ Hrun). unfold count_audio, count_video.
        rewrite <- !Nat.add_succ_comm. reflexivity.
Qed.

Lemma count_audio_bound pre :
  (count_audio pre <= length pre)%nat /\
  (count_audio pre = length pre <->
   Forall (fun q => contains q "content/audio_header" = true) pre).
Proof.
  unfold count_audio. induction pre as [|q pre [IHle IHeq]]; simpl.
  - split; [lia|]. split; [constructor | reflexivity].
  - destruct (contains q "content/audio_header") eqn:Hq; simpl.
    + split; [lia|]. split.
      * intros Hlen. constructor; [exact Hq | apply IHeq; lia].
      * intros Hall. inversion Hall; subst. f_equal. apply IHeq. assumption.
    + split; [lia|]. split.
      * intros Hlen. lia.
      * intros Hall. inversion Hall; subst. congruence.
Qed.

(** X19: an audio stream that comes after the streams [pre] is added as
    the group ["audio[n]"], [n] being one more than the number of audio
    streams in [pre], while its bit rate is looked up at the raw position
    of the stream, the length of [pre]; the loop then goes on with the
    streams after it. The number of audio streams in [pre], [n - 1], is
    at most the raw position, and equals it exactly when every stream of
    [pre] is an audio stream. *)
Theorem asf_stream_counters header pre p post audio meta (r r1 : MultipleMetadata) :
  AsfMetadata.stream_loop header pre 0 1 1 r = (r1, Ok tt) ->
  field_at p "content/audio_header" = Some audio ->
  AsfMetadata.audio_stream header (length pre) audio ∅ = (meta, Ok tt) ->
  let n := S (count_audio pre) in
  AsfMetadata.stream_loop header (pre ++ p :: post) 0 1 1 r
  = AsfMetadata.stream_loop header post (S (length pre)) (S n) (S (count_video pre))
      (add_group ("audio[" +:+ pretty n +:+ "]") meta
         (Some ("Audio stream #" +:+ pretty n)) r1) /\
  (n - 1 <= length pre)%nat /\
  ((n - 1)%nat = length pre <->
   Forall (fun q => contains q "content/audio_header" = true) pre).
Proof.
  intros Hpre Haudio Hmeta n. subst n. split.
  - rewrite (stream_loop_app _ _ _ _ _ _ _ _ Hpre). cbn [Nat.add].
    cbn [AsfMetadata.stream_loop].
    rewrite (contains_some _ _ _ Haudio), (field_some _ _ _ Haudio), bind_ret.
    unfold bind at 1, on_new. rewrite Hmeta. reflexivity.
  - replace (S (count_audio pre) - 1)%nat with (count_audio pre) by lia.
    apply count_audio_bound.
Qed.

(** A video stream, then an audio stream: the audio group is ["audio[1]"]
    (no audio stream before it) and its bit rate is the one at position 1. *)
Lemma asf_stream_counters_witness :
  let r := fst (AsfMetadata.stream_loop sample_header_streams
                  (array_of sample_header_streams "stream_prop") 0 1 1 empty_record) in
  map g_key (groups r) = ["video[1]"; "audio[1]"] /\
  map (fun g => get (g_meta g) "bit_rate") (groups r)
  = [Some (VInt 700000); Some (VInt 64000)].
Proof.
  intros r. subst r.
  set (props := array_of sample_header_streams "stream_prop").
  set (audio := node "audio_header"
                  [ leaf "twocc" (VInt 353) "Windows Media Audio";
                    leaf "sample_rate" (VInt 44100) "44100";
                    leaf "bits_per_sample" (VInt 16) "16" ]).
  assert (Hpre : AsfMetadata.stream_loop sample_header_streams (firstn 1 props) 0 1 1
                   empty_record
                 = (fst (AsfMetadata.stream_loop sample_header_streams (firstn 1 props)
                           0 1 1 empty_record), Ok tt))
    by (vm_compute; reflexivity).
  assert (Haudio : field_at (nth 1 props empty_tree) "content/audio_header" = Some audio)
    by reflexivity.
  assert (Hmeta : AsfMetadata.audio_stream sample_header_streams
                    (length (firstn 1 props)) audio ∅
                  = (fst (AsfMetadata.audio_stream sample_header_streams 1 audio ∅), Ok tt))
    by (vm_compute; reflexivity).
  change props with (firstn 1 props ++ nth 1 props empty_tree :: []).
  rewrite (proj1 (asf_stream_counters sample_header_streams (firstn 1 props)
             (nth 1 props empty_tree) [] audio _ empty_record _ Hpre Haudio Hmeta)).
  split; vm_compute; reflexivity.
Defined.

(** ** ASF: descriptors with the same name *)

Lemma read_plain_descriptor {S} ext desc ty fname fv name v (data : AsfMetadata.Data) (s : S) :
  field_at desc "type" = Some ty ->
  value_eqb (f_value ty) (TYPE_BYTE_ARRAY ext) = false ->
  field_at desc "name" = Some fname -> f_value fname = VUni name ->
  value_in (VUni name) AsfMetadata.SKIP_EXT_DESC = false ->
  field_at desc "value" = Some fv -> f_value fv = VUni v -> v <> "" ->
  AsfMetadata.read_descriptor ext data desc s
  = (s, Ok (AsfMetadata.data_set
              (match AsfMetadata.after_slash name with Some k => k | None => name end)
              false (VUni v) data)).
Proof.
  intros Hty Hbytes Hname Hnamev Hskip Hvalue Hvaluev Hne.
  unfold AsfMetadata.read_descriptor.
  rewrite (value_at_some _ _ _ Hty), bind_ret, Hbytes.
  rewrite (value_at_some _ _ _ Hname), bind_ret, Hnamev, Hskip.
  rewrite (value_at_some _ _ _ Hvalue), bind_ret, Hvaluev.
  apply String.eqb_neq in Hne. cbn [Py.truthy]. rewrite Hne. reflexivity.
Qed.

(** X20: of two descriptors with the same text name, both kept by the
    loop, only the second counts: the dictionary holds one value per key,
    and the block gives what it gives for the second descriptor alone. *)
Theorem asf_same_name_last_wins ext d1 d2 ty1 ty2 fn1 fn2 fv1 fv2 name v1 v2
    (r : MultipleMetadata) :
  field_at d1 "type" = Some ty1 -> value_eqb (f_value ty1) (TYPE_BYTE_ARRAY ext) = false ->
  field_at d2 "type" = Some ty2 -> value_eqb (f_value ty2) (TYPE_BYTE_ARRAY ext) = false ->
  field_at d1 "name" = Some fn1 -> f_value fn1 = VUni name ->
  field_at d2 "name" = Some fn2 -> f_value fn2 = VUni name ->
  value_in (VUni name) AsfMetadata.SKIP_EXT_DESC = false ->
  field_at d1 "value" = Some fv1 -> f_value fv1 = VUni v1 -> v1 <> "" ->
  field_at d2 "value" = Some fv2 -> f_value fv2 = VUni v2 -> v2 <> "" ->
  AsfMetadata.process_descriptors ext [d1; d2] r
  = AsfMetadata.process_descriptors ext [d2] r.
Proof.
  intros Ht1 Hb1 Ht2 Hb2 Hn1 Hnv1 Hn2 Hnv2 Hskip Hv1 Hvv1 Hne1 Hv2 Hvv2 Hne2.
  unfold AsfMetadata.process_descriptors. apply bind_ext_first.
  cbn [AsfMetadata.read_descriptors].
  rewrite (bind_run_ok _ _ _ _ _
             (read_plain_descriptor ext d1 ty1 fn1 fv1 name v1 ∅ r
                Ht1 Hb1 Hn1 Hnv1 Hskip Hv1 Hvv1 Hne1)).
  rewrite !(bind_run_ok _ _ _ _ _
              (read_plain_descriptor ext d2 ty2 fn2 fv2 name v2 _ r
                 Ht2 Hb2 Hn2 Hnv2 Hskip Hv2 Hvv2 Hne2)).
  unfold AsfMetadata.data_set.
  rewrite lookup_empty, lookup_insert_eq, insert_insert_eq. reflexivity.
Qed.

Lemma asf_same_name_last_wins_witness :
  values (attrs (fst (AsfMetadata.process_descriptors sample_ext
                        [descriptor 0 "WM/Year" (VUni "1999");
                         descriptor 0 "WM/Year" (VUni "2005")] empty_record)))
         "creation_date" = [VUni "2005"].
Proof.
  rewrite (asf_same_name_last_wins sample_ext
             (descriptor 0 "WM/Year" (VUni "1999")) (descriptor 0 "WM/Year" (VUni "2005"))
             (leaf "type" (VInt 0) "") (leaf "type" (VInt 0) "")
             (leaf "name" (VUni "WM/Year") "WM/Year") (leaf "name" (VUni "WM/Year") "WM/Year")
             (leaf "value" (VUni "1999") "") (leaf "value" (VUni "2005") "")
             "WM/Year" "1999" "2005" empty_record
             eq_refl eq_refl eq_refl eq_refl eq_refl eq_refl eq_refl eq_refl eq_refl
             eq_refl eq_refl ltac:(discriminate) eq_refl eq_refl ltac:(discriminate)).
  vm_compute. reflexivity.
Defined.
